(** * Handheld Daemon (hhd): virtual uinput device and power-button watchdog

    A shallow embedding of
    - [src/hhd/controller/virtual/uinput/__init__.py] (class [UInputDevice]) and
    - [src/hhd/plugins/powerbutton/base.py] (the two power-button loops),
    together with the properties the specification states about them.

    Python integers are unbounded and are modelled by [Z]; Python floats are
    IEEE-754 binary64 and are modelled by [spec_float] with the operations of
    [SpecFloat] at precision 53; dictionaries are [gmap]s; calls on the kernel
    handle are recorded in a trace of operations. *)

From Stdlib Require Import ZArith Lia Bool.
From Stdlib Require Import Floats.SpecFloat.
From stdpp Require Import gmap strings list sorting.

Local Open Scope Z_scope.

(** ** Python numbers *)

Module PyNum.

(** binary64 *)
Definition prec : Z := 53.
Definition emax : Z := 1024.

Definition fmul : spec_float -> spec_float -> spec_float := SFmul prec emax.
Definition fadd : spec_float -> spec_float -> spec_float := SFadd prec emax.
Definition fsub : spec_float -> spec_float -> spec_float := SFsub prec emax.
Definition fdiv : spec_float -> spec_float -> spec_float := SFdiv prec emax.

(** [a > b] on floats; false as soon as one side is a NaN. *)
Definition fgtb (a b : spec_float) : bool := SFltb b a.

(** The dyadic number [m * 2^e], rounded to the nearest float. *)
Definition dyadic (m e : Z) : spec_float := binary_normalize prec emax m e false.

(** Conversion of an integer operand in mixed arithmetic ([float * int],
    [int / int]): the nearest float, ties to even. *)
Definition float_of_int (z : Z) : spec_float := dyadic z 0.

Inductive exn : Set :=
| ValueError | OverflowError | AttributeError | IndexError.

(** [int(x)]: truncation toward zero; [int(nan)] raises [ValueError] and
    [int(inf)] raises [OverflowError].  [Z.shiftl] by a negative amount is
    a right shift. *)
Definition py_int (x : spec_float) : exn + Z :=
  match x with
  | S754_zero _ => inr 0
  | S754_finite s m e => inr (cond_Zopp s (Z.shiftl (Z.pos m) e))
  | S754_infinity _ => inl OverflowError
  | S754_nan => inl ValueError
  end.

(** Truthiness of a float: [0.0] and [-0.0] are false, all else is true. *)
Definition float_truthy (x : spec_float) : bool :=
  match x with
  | S754_zero _ => false
  | _ => true
  end.

(** [t] is the integer part of the real number that [x] denotes: same sign,
    and magnitude the largest integer not exceeding the magnitude of [x]. *)
Definition is_trunc (x : spec_float) (t : Z) : Prop :=
  match x with
  | S754_zero _ => t = 0
  | S754_finite s m e =>
      (if s then t <= 0 else 0 <= t) /\
      (if 0 <=? e
       then Z.abs t = Z.pos m * 2 ^ e
       else Z.abs t * 2 ^ (- e) <= Z.pos m < (Z.abs t + 1) * 2 ^ (- e))
  | _ => False
  end.

(** Rounding to the nearest integer, ties to even: what the specification
    calls [round] (Python's [round(x)]); it is not what the source calls. *)
Definition spec_round (x : spec_float) : exn + Z :=
  match x with
  | S754_zero _ => inr 0
  | S754_finite s m e =>
      if 0 <=? e then inr (cond_Zopp s (Z.pos m * 2 ^ e))
      else
        let d := 2 ^ (- e) in
        let q := Z.pos m / d in
        let r := Z.pos m mod d in
        inr (cond_Zopp s
               (match 2 * r ?= d with
                | Lt => q
                | Gt => q + 1
                | Eq => if Z.even q then q else q + 1
                end))
  | S754_infinity _ => inl OverflowError
  | S754_nan => inl ValueError
  end.

(** A value that is either an [int] or a [float]. *)
Inductive pynum : Set :=
| PyInt (z : Z)
| PyFloat (x : spec_float).

(** An attribute of an object: never assigned, [None], or a value. *)
Inductive attr (A : Type) : Type :=
| Unset
| PyNone
| Val (a : A).
Arguments Unset {A}.
Arguments PyNone {A}.
Arguments Val {A} a.

End PyNum.
Import PyNum.

(** ** A state, trace and exception monad

    [S] is the object being mutated ([self]), [O] the type of the recorded
    external operations.  Mutations and operations made before an exception
    is raised are kept, as they are in Python. *)

Module Eff.
Section Eff.
Context {S O : Type}.

Definition M (A : Type) : Type := S -> S * list O * (exn + A).

Definition ret {A} (a : A) : M A := fun s => (s, [], inr a).

Definition bind {A B} (m : M A) (k : A -> M B) : M B :=
  fun s =>
    match m s with
    | (s1, o1, inr a) => let '(s2, o2, r) := k a s1 in (s2, o1 ++ o2, r)
    | (s1, o1, inl e) => (s1, o1, inl e)
    end.

Definition raise {A} (e : exn) : M A := fun s => (s, [], inl e).
Definition emit (o : O) : M unit := fun s => (s, [o], inr tt).
Definition get : M S := fun s => (s, [], inr s).
Definition put (s : S) : M unit := fun _ => (s, [], inr tt).

Definition lift {A} (r : exn + A) : M A :=
  match r with
  | inr a => ret a
  | inl e => raise e
  end.

(** [for x in xs: body x] *)
Fixpoint for_each {A} (body : A -> M unit) (xs : list A) : M unit :=
  match xs with
  | [] => ret tt
  | x :: rest => bind (body x) (fun _ => for_each body rest)
  end.

(** [for x in xs: out.extend(body x)], for a local list [out]. *)
Fixpoint for_collect {A B} (body : A -> M (list B)) (xs : list A)
    : M (list B) :=
  match xs with
  | [] => ret []
  | x :: rest =>
      bind (body x) (fun o1 =>
      bind (for_collect body rest) (fun o2 => ret (o1 ++ o2)))
  end.
End Eff.
End Eff.
Import Eff.

Notation "x <- m ;; k" := (bind m (fun x => k))
  (at level 62, m at next level, right associativity, only parsing).
Notation "m ;;; k" := (bind m (fun _ => k))
  (at level 62, right associativity, only parsing).

(** ** Event codes

    [B(name)] in the source is [getattr(evdev.ecodes, name)]; the values are
    those of [linux/input-event-codes.h] and [linux/uinput.h]. *)

Module ecodes.
Definition EV_KEY : Z := 1.
Definition EV_ABS : Z := 3.
Definition EV_MSC : Z := 4.
Definition EV_FF : Z := 21.
Definition EV_UINPUT : Z := 257.
Definition MSC_TIMESTAMP : Z := 5.
Definition UI_FF_UPLOAD : Z := 1.
Definition UI_FF_ERASE : Z := 2.
Definition FF_RUMBLE : Z := 80.
Definition KEY_POWER : Z := 116.
End ecodes.
Import ecodes.

(** An [evdev.InputEvent], as returned by [read] and [read_one]. *)
Record InputEvent : Type := { ev_type : Z; ev_code : Z; ev_value : Z }.

(** ** The virtual output device *)

Module UInputDevice.

(** Modelled from the spec: the axis mapping entry [AX] of [const.py],
    [{ target_id: int, scale: f64, offset: f64, bounds: Option<(i64,i64)> }]. *)
Record AX : Type := {
  ax_id : Z;
  scale : spec_float;
  offset : spec_float;
  bounds : option (Z * Z)
}.

(** Modelled from the spec: the abstract event of [hhd.controller.base], a
    dictionary with a ["type"] tag.  Axis values and timestamps are
    integers; in the source a timestamp is an event of type ["axis"] whose
    code is ["accel_ts"] or ["gyro_ts"]. *)
Inductive Event : Type :=
| AxisEvent (code : string) (value : Z)
| ButtonEvent (code : string) (value : bool)
| RumbleEvent (code : string) (weak_magnitude strong_magnitude : pynum)
| OtherEvent (type : string).

(** The [evdev.UInput] object: identified by its descriptor. *)
Record UInput : Type := { ui_fd : Z }.

(** Calls made on the [UInput] object. *)
Inductive dev_op : Type :=
| Write (etype code value : Z)
| Syn
| Close
| BeginUpload (request : Z)
| EndUpload (request : Z)
| BeginErase (request : Z)
| EndErase (request retval : Z).

(** The attributes of [self] that the methods read or write. *)
Record t : Type := {
  btn_map : gmap string Z;
  axis_map : gmap string AX;
  dev : option UInput;
  fd : attr Z;
  input : attr UInput;
  output_timestamps : bool;
  ofs : Z;
  rumble : option Event
}.

Definition set_dev (self : t) (d : option UInput) : t :=
  {| btn_map := btn_map self; axis_map := axis_map self; dev := d;
     fd := fd self; input := input self;
     output_timestamps := output_timestamps self; ofs := ofs self;
     rumble := rumble self |}.

Definition set_fd (self : t) (v : attr Z) : t :=
  {| btn_map := btn_map self; axis_map := axis_map self; dev := dev self;
     fd := v; input := input self;
     output_timestamps := output_timestamps self; ofs := ofs self;
     rumble := rumble self |}.

Definition set_input (self : t) (v : attr UInput) : t :=
  {| btn_map := btn_map self; axis_map := axis_map self; dev := dev self;
     fd := fd self; input := v;
     output_timestamps := output_timestamps self; ofs := ofs self;
     rumble := rumble self |}.

Definition set_ofs (self : t) (v : Z) : t :=
  {| btn_map := btn_map self; axis_map := axis_map self; dev := dev self;
     fd := fd self; input := input self;
     output_timestamps := output_timestamps self; ofs := v;
     rumble := rumble self |}.

Definition set_rumble (self : t) (v : option Event) : t :=
  {| btn_map := btn_map self; axis_map := axis_map self; dev := dev self;
     fd := fd self; input := input self;
     output_timestamps := output_timestamps self; ofs := ofs self;
     rumble := v |}.

(** [__init__]: [dev] is [None], [fd] and [input] are not assigned. *)
Definition init (btn_map : gmap string Z) (axis_map : gmap string AX)
    (output_timestamps : bool) : t :=
  {| btn_map := btn_map; axis_map := axis_map; dev := None;
     fd := Unset; input := Unset;
     output_timestamps := output_timestamps; ofs := 0; rumble := None |}.

(** [open]: the kernel hands out the new handle [h]. *)
Definition open (h : UInput) : M (S := t) (O := dev_op) (list Z) :=
  self <- get ;;
  put (set_dev self (Some h)) ;;;
  self <- get ;;
  put (set_fd self (Val (ui_fd h))) ;;;
  ret [ui_fd h].

(** [close]: an [UInput] object is always truthy, so the guard is
    [self.dev is not None]. *)
Definition close (exit : bool) : M (S := t) (O := dev_op) bool :=
  self <- get ;;
  (match dev self with
   | Some _ => emit Close
   | None => ret tt
   end) ;;;
  self <- get ;;
  put (set_input self PyNone) ;;;
  self <- get ;;
  put (set_fd self PyNone) ;;;
  ret true.

(** [min(max(val, bounds[0]), bounds[1])] when [bounds] is set. *)
Definition apply_bounds (b : option (Z * Z)) (val : Z) : Z :=
  match b with
  | Some (lo, hi) => Z.min (Z.max val lo) hi
  | None => val
  end.

(** [ax.scale * ev["value"] + ax.offset] *)
Definition axis_float (ax : AX) (value : Z) : spec_float :=
  fadd (fmul (scale ax) (float_of_int value)) (offset ax).

(** The body of the [for] loop of [consume]. *)
Definition consume_event (ev : Event) : M (S := t) (O := dev_op) unit :=
  self <- get ;;
  match ev with
  | AxisEvent code value =>
      match axis_map self !! code with
      | Some ax =>
          val <- lift (py_int (axis_float ax value)) ;;
          emit (Write EV_ABS (ax_id ax) (apply_bounds (bounds ax) val))
      | None =>
          if output_timestamps self
             && bool_decide (code ∈ ["accel_ts"; "gyro_ts"]%string)
          then
            let ts := value / 1000 in
            let ofs' := if ofs self + 2 ^ 30 <? ts then ts else ofs self in
            put (set_ofs self ofs') ;;;
            emit (Write EV_MSC MSC_TIMESTAMP (ts - ofs'))
          else ret tt
      end
  | ButtonEvent code value =>
      match btn_map self !! code with
      | Some b => emit (Write EV_KEY b (if value then 1 else 0))
      | None => ret tt
      end
  | _ => ret tt
  end.

Definition consume (events : list Event) : M (S := t) (O := dev_op) unit :=
  self <- get ;;
  match dev self with
  | None => ret tt
  | Some _ => for_each consume_event events ;;; emit Syn
  end.

(** The [ff_effect] the kernel returns for an upload request: its type and
    the two 16-bit magnitudes of its rumble member. *)
Record ff_effect : Type := {
  effect_type : Z;
  rumble_weak : Z;
  rumble_strong : Z
}.

(** [a / b] on two integers below [2^53]: the float nearest to the
    quotient. *)
Definition truediv (a b : Z) : spec_float :=
  fdiv (float_of_int a) (float_of_int b).

(** The body of the inner [for] loop of [produce]; the result is what the
    iteration appends to [out].  [uploads] is the answer of the kernel to
    [begin_upload].  An [InputEvent] has no method [end_erase], so the call
    [ev.end_erase(erase)] raises [AttributeError]. *)
Definition produce_event (uploads : Z -> ff_effect) (ev : InputEvent)
    : M (S := t) (O := dev_op) (list Event) :=
  if (ev_type ev =? EV_MSC) && (ev_code ev =? MSC_TIMESTAMP) then ret []
  else if ev_type ev =? EV_UINPUT then
    if ev_code ev =? UI_FF_UPLOAD then
      emit (BeginUpload (ev_value ev)) ;;;
      (let data := uploads (ev_value ev) in
       if effect_type data =? FF_RUMBLE then
         self <- get ;;
         put (set_rumble self
                (Some (RumbleEvent "main"
                         (PyFloat (truediv (rumble_weak data) 65535))
                         (PyFloat (truediv (rumble_strong data) 65535)))))
       else ret tt) ;;;
      emit (EndUpload (ev_value ev)) ;;;
      ret []
    else if ev_code ev =? UI_FF_ERASE then
      emit (BeginErase (ev_value ev)) ;;;
      raise AttributeError
    else ret []
  else if (ev_type ev =? EV_FF) && negb (ev_value ev =? 0) then
    self <- get ;;
    match rumble self with
    | Some r => ret [r]
    | None => ret []
    end
  else if (ev_type ev =? EV_FF) && (ev_value ev =? 0) then
    ret [RumbleEvent "main" (PyInt 0) (PyInt 0)]
  else ret [].

(** [while can_read(self.fd): for ev in self.dev.read(): ...], where
    [batches] are the successive results of [self.dev.read()] for as long
    as the descriptor is readable. *)
Definition drain (uploads : Z -> ff_effect) (batches : list (list InputEvent))
    : M (S := t) (O := dev_op) (list Event) :=
  for_collect (for_collect (produce_event uploads)) batches.

(** [not self.fd or not self.fd in fds or not self.dev]; reading the
    attribute [fd] before [open] or [close] assigned it raises. *)
Definition produce (fds : list Z) (uploads : Z -> ff_effect)
    (batches : list (list InputEvent))
    : M (S := t) (O := dev_op) (list Event) :=
  self <- get ;;
  match fd self with
  | Unset => raise AttributeError
  | PyNone => ret []
  | Val n =>
      if (n =? 0) || negb (bool_decide (n ∈ fds)) then ret []
      else
        match dev self with
        | None => ret []
        | Some _ => drain uploads batches
        end
  end.

End UInputDevice.

(** ** The power-button watchdog *)

Module PowerButton.

(** [STEAM_WAIT_DELAY = 0.5] and [LONG_PRESS_DELAY = 2.5] *)
Definition STEAM_WAIT_DELAY : spec_float := Eval vm_compute in dyadic 1 (-1).
Definition LONG_PRESS_DELAY : spec_float := Eval vm_compute in dyadic 5 (-1).

Inductive dev_id : Set := PressDev | HoldDev.

(** Modelled from the spec: an element of [cfg.hold_events]
    ([PowerButtonConfig] of [const.py]), a triple
    [(event_type, event_code, event_value)]. *)
Definition hold_event : Type := Z * Z * Z.

(** What the loops observe of their environment at one logical instant.
    The instant advances with every blocking call ([sleep], [select]). *)
Record tick : Type := {
  exit_set : bool;        (* [should_exit.is_set()] *)
  steam_running : bool;   (* [is_steam_gamescope_running(perms)] *)
  press_found : bool;     (* [register_power_button] returns a device *)
  hold_found : bool;      (* [register_hold_button] returns a device *)
  ready : option (dev_id * InputEvent);
                          (* [select]: [None] on timeout, else the first
                             ready device and what [read_one] returns *)
  perf_counter : spec_float;
  action_ok : bool        (* result of [run_steam_command] *)
}.

Definition world : Type := nat -> tick.

(** The calls that leave the process. *)
Inductive action : Type :=
| Register (d : dev_id)
| CloseDev (d : dev_id)
| Sleep
| Select (timeout : spec_float)
| ShortPress
| LongPress
| Suspend.

Inductive status : Set := Returned | OutOfFuel.

Inductive press_type : Set :=
| long_press | short_press | initial_press | release_without_press
| no_press.

(** [if pressed_time]: [None] and [0.0] are false. *)
Definition truthy_time (pressed_time : option spec_float) : bool :=
  match pressed_time with
  | Some p => float_truthy p
  | None => false
  end.

(** "Handle press logic" of [power_button_timer]: the new [pressed_time]
    and the [press_type], from the result [r] of [select] (with the event
    read), and [perf_counter()]. *)
Definition classify (pressed_time : option spec_float)
    (r : option InputEvent) (curr_time : spec_float)
    : option spec_float * press_type :=
  match r with
  | Some ev =>
      if (ev_type ev =? EV_KEY) && (ev_code ev =? KEY_POWER) then
        if negb (ev_value ev =? 0) then (Some curr_time, initial_press)
        else
          match pressed_time with
          | Some p =>
              if float_truthy p then
                (None,
                 if fgtb (fsub curr_time p) LONG_PRESS_DELAY
                 then long_press else short_press)
              else (pressed_time, release_without_press)
          | None => (pressed_time, release_without_press)
          end
      else (pressed_time, no_press)
  | None =>
      if truthy_time pressed_time then (pressed_time, long_press)
      else (pressed_time, no_press)
  end.

(** [match press_type] followed by [if issue_systemctl]. *)
Definition dispatch (pt : press_type) (ok : bool) : list action :=
  match pt with
  | long_press => LongPress :: (if ok then [] else [Suspend])
  | short_press => ShortPress :: (if ok then [] else [Suspend])
  | _ => []
  end.

(** The descriptor set of the timer variant holds the press device
    only. *)
Definition timer_ready (tk : tick) : option InputEvent :=
  match ready tk with
  | Some (PressDev, ev) => Some ev
  | _ => None
  end.

(** [while not is_steam_gamescope_running(perms): sleep(STEAM_WAIT_DELAY)] *)
Fixpoint wait_steam_timer (fuel : nat) (w : world) (n : nat)
    : list action * option nat :=
  match fuel with
  | O => ([], None)
  | S f =>
      if steam_running (w n) then ([], Some n)
      else
        let '(tr, r) := wait_steam_timer f w (S n) in (Sleep :: tr, r)
  end.

(** [power_button_timer], from the [while] on; [dev] tells whether the
    device is held.  The [finally] clause closes it on return. *)
Fixpoint power_button_timer (fuel : nat) (w : world) (dev : bool)
    (pressed_time : option spec_float) (n : nat) : list action * status :=
  match fuel with
  | O => ([], OutOfFuel)
  | S f =>
      if exit_set (w n) then
        (if dev then [CloseDev PressDev] else [], Returned)
      else
        let '(tr1, dev1, r1) :=
          if steam_running (w n) then ([], dev, Some n)
          else
            let '(tr, r) := wait_steam_timer f w n in
            ((if dev then [CloseDev PressDev] else []) ++ tr, false, r) in
        match r1 with
        | None => (tr1, OutOfFuel)
        | Some n1 =>
            let '(tr2, dev2) :=
              if dev1 then ([], true)
              else if press_found (w n1) then ([Register PressDev], true)
              else ([], false) in
            if negb dev2 then (tr1 ++ tr2, Returned)
            else
              let delay :=
                if truthy_time pressed_time then LONG_PRESS_DELAY
                else STEAM_WAIT_DELAY in
              let '(pressed_time', pt) :=
                classify pressed_time (timer_ready (w n1))
                  (perf_counter (w n1)) in
              let tr3 := Select delay :: dispatch pt (action_ok (w n1)) in
              let '(tr4, st) :=
                power_button_timer f w true pressed_time' (S n1) in
              (tr1 ++ tr2 ++ tr3 ++ tr4, st)
        end
  end.

(** The hold branch of [power_button_isa]: the new [hold_state] and
    whether the long press is executed. *)
Definition hold_match (hold_events : list hold_event) (hold_state : nat)
    (chk : hold_event) : exn + (nat * bool) :=
  let hold_state :=
    if (length hold_events <=? hold_state)%nat then O else hold_state in
  match hold_events !! hold_state with
  | None => inl IndexError
  | Some expected =>
      let hold_state :=
        if bool_decide (chk = expected) then S hold_state else O in
      if (hold_state =? length hold_events)%nat then inr (O, true)
      else inr (hold_state, false)
  end.

(** Feeding the hold device's events one after the other: the final
    [hold_state] and the number of long presses executed. *)
Fixpoint hold_run (hold_events : list hold_event) (hold_state : nat)
    (evs : list hold_event) : exn + (nat * nat) :=
  match evs with
  | [] => inr (hold_state, O)
  | chk :: rest =>
      match hold_match hold_events hold_state chk with
      | inl e => inl e
      | inr (hold_state', fired) =>
          match hold_run hold_events hold_state' rest with
          | inl e => inl e
          | inr (final, k) => inr (final, if fired then S k else k)
          end
      end
  end.

(** "Handle button event" of [power_button_isa] for the descriptor
    [r[0]]: the new [hold_state] and the calls made. *)
Definition isa_handle (hold_events : list hold_event) (hold_state : nat)
    (d : dev_id) (ev : InputEvent) (ok : bool)
    : exn + (nat * list action) :=
  match d with
  | PressDev =>
      if (ev_type ev =? EV_KEY) && (ev_code ev =? KEY_POWER)
         && negb (ev_value ev =? 0)
      then inr (hold_state, ShortPress :: (if ok then [] else [Suspend]))
      else inr (hold_state, [])
  | HoldDev =>
      match hold_match hold_events hold_state
              (ev_type ev, ev_code ev, ev_value ev) with
      | inl e => inl e
      | inr (hold_state', fired) =>
          inr (hold_state',
               if fired then LongPress :: (if ok then [] else [Suspend])
               else [])
      end
  end.

Inductive wait_result : Set :=
| SteamUp (n : nat)
| ExitSeen
| NoFuel.

(** The gating wait of [power_button_isa]:
    [while not is_steam_gamescope_running(perms):
       if should_exit.is_set(): return
       sleep(STEAM_WAIT_DELAY)] *)
Fixpoint wait_steam_isa (fuel : nat) (w : world) (n : nat)
    : list action * wait_result :=
  match fuel with
  | O => ([], NoFuel)
  | S f =>
      if steam_running (w n) then ([], SteamUp n)
      else if exit_set (w n) then ([], ExitSeen)
      else
        let '(tr, r) := wait_steam_isa f w (S n) in (Sleep :: tr, r)
  end.

(** [power_button_isa], from the [while] on, for a non-empty
    [hold_events]; [devs] tells whether both devices are held. *)
Fixpoint power_button_isa_loop (hold_events : list hold_event)
    (fuel : nat) (w : world) (devs : bool) (hold_state : nat) (n : nat)
    : list action * status :=
  match fuel with
  | O => ([], OutOfFuel)
  | S f =>
      if exit_set (w n) then ([], Returned)
      else
        let '(tr1, devs1, r1) :=
          if steam_running (w n) then ([], devs, SteamUp n)
          else
            let '(tr, r) := wait_steam_isa f w n in
            ((if devs then [CloseDev PressDev; CloseDev HoldDev] else [])
               ++ tr, false, r) in
        match r1 with
        | NoFuel => (tr1, OutOfFuel)
        | ExitSeen => (tr1, Returned)
        | SteamUp n1 =>
            let '(tr2, devs2) :=
              if devs1 then ([], true)
              else
                ((if press_found (w n1) then [Register PressDev] else [])
                   ++ (if hold_found (w n1) then [Register HoldDev] else []),
                 press_found (w n1) && hold_found (w n1)) in
            if negb devs2 then (tr1 ++ tr2, Returned)
            else
              match ready (w n1) with
              | None =>
                  let '(tr4, st) :=
                    power_button_isa_loop hold_events f w true hold_state
                      (S n1) in
                  (tr1 ++ tr2 ++ Select STEAM_WAIT_DELAY :: tr4, st)
              | Some (d, ev) =>
                  match isa_handle hold_events hold_state d ev
                          (action_ok (w n1)) with
                  | inl _ =>
                      (tr1 ++ tr2 ++ [Select STEAM_WAIT_DELAY], Returned)
                  | inr (hold_state', tr3) =>
                      let '(tr4, st) :=
                        power_button_isa_loop hold_events f w true
                          hold_state' (S n1) in
                      (tr1 ++ tr2 ++ Select STEAM_WAIT_DELAY :: tr3 ++ tr4,
                       st)
                  end
              end
        end
  end.

(** [power_button_isa]: [if not cfg.hold_events] returns at once, for
    [None] as for an empty sequence. *)
Definition power_button_isa (hold_events : option (list hold_event))
    (fuel : nat) (w : world) : list action * status :=
  match hold_events with
  | None | Some [] => ([], Returned)
  | Some hs => power_button_isa_loop hs fuel w false O O
  end.

End PowerButton.

Import UInputDevice.
Import PowerButton.

(** ** Device discovery and the entry point of the watchdog *)

Module Discovery.

(** The fields of [PowerButtonConfig] ([const.py]) that [base.py] reads:
    [cfg.type], [b.phys], [b.hold_phys], [b.hold_grab], [b.hold_events]. *)
Record PowerButtonConfig : Type := {
  type : string;
  phys : string;
  hold_phys : option string;
  hold_grab : option bool;
  hold_events : option (list hold_event)
}.

(** An input device as [evdev.list_devices()] lists it: its path, what
    [str(device.phys)] is, and whether [device.grab()] succeeds. *)
Record InputDevice : Type := {
  path : string;
  dev_phys : string;
  grabbable : bool
}.

(** The calls made on the devices. *)
Inductive op : Type :=
| Open (path : string)
| Grab (path : string).

(** A device, [None], or the [OSError] of a refused [grab]. *)
Inductive found : Type :=
| Device (d : InputDevice)
| NoDevice
| GrabRefused (d : InputDevice).

(** The loop of [register_power_button] and [register_hold_button] over
    the opened devices: the first device whose [phys] starts with [prefix]
    is grabbed, when [grab] is set, and returned. *)
Fixpoint first_device (prefix : string) (grab : bool)
    (devices : list InputDevice) : list op * found :=
  match devices with
  | [] => ([], NoDevice)
  | d :: rest =>
      if String.prefix prefix (dev_phys d) then
        if grab then
          ([Grab (path d)], if grabbable d then Device d else GrabRefused d)
        else ([], Device d)
      else first_device prefix grab rest
  end.

(** [register_power_button]: the list comprehension opens every listed
    device before the loop looks at the first. *)
Definition register_power_button (b : PowerButtonConfig)
    (devices : list InputDevice) : list op * found :=
  let '(ops, r) := first_device (phys b) true devices in
  ((Open ∘ path <$> devices) ++ ops, r).

(** [register_hold_button]: [not b.hold_phys] holds for [None] and for the
    empty string, [not b.hold_events] for [None] and for the empty
    sequence. *)
Definition register_hold_button (b : PowerButtonConfig)
    (devices : list InputDevice) : list op * found :=
  match hold_phys b, hold_events b, hold_grab b with
  | Some hp, Some (_ :: _), Some grab =>
      if String.eqb hp "" then ([], NoDevice)
      else
        let '(ops, r) := first_device hp grab devices in
        ((Open ∘ path <$> devices) ++ ops, r)
  | _, _, _ => ([], NoDevice)
  end.

(** [power_button_run]: the loop is chosen by [cfg.type]; any other type
    is reported and the function returns. *)
Definition power_button_run (cfg : PowerButtonConfig) (fuel : nat)
    (w : world) : list action * status :=
  if String.eqb (type cfg) "hold_emitted" then
    power_button_timer fuel w false None O
  else if String.eqb (type cfg) "hold_isa" then
    power_button_isa (hold_events cfg) fuel w
  else ([], Returned).

End Discovery.

(** * Sample inputs and the specification's wording *)

(** A device as [open] leaves it, on descriptor 7, with one axis that scales
    by [0.75], one that scales by [1.0] and is clamped to [[-5, 5]], and one
    button. *)
Definition handle7 : UInput := {| ui_fd := 7 |}.

Definition ax_three_quarters : AX :=
  {| ax_id := 0; scale := dyadic 3 (-2); offset := S754_zero false;
     bounds := None |}.

Definition ax_clamped : AX :=
  {| ax_id := 1; scale := float_of_int 1; offset := S754_zero false;
     bounds := Some (-5, 5) |}.

Definition sample_axis_map : gmap string AX :=
  <["ls_x"%string := ax_three_quarters]> (<["ls_y"%string := ax_clamped]> ∅).

Definition sample_btn_map : gmap string Z := <["a"%string := 304]> ∅.

Definition fresh_device : UInputDevice.t :=
  init sample_btn_map sample_axis_map true.

Definition opened_device : UInputDevice.t :=
  set_fd (set_dev fresh_device (Some handle7)) (Val 7).

(** The axis mapping as the specification words it, with [round]. *)
Definition axis_mapping_as_stated : Prop :=
  forall (self : UInputDevice.t) (h : UInput) (code : string) (value : Z)
         (ax : AX) (r : Z),
    dev self = Some h ->
    axis_map self !! code = Some ax ->
    spec_round (axis_float ax value) = inr r ->
    consume [AxisEvent code value] self
    = (self,
       [Write EV_ABS (ax_id ax)
          (match bounds ax with
           | Some (lo, hi) => Z.min (Z.max r lo) hi
           | None => r
           end); Syn],
       inr tt).

(** The timestamps as the specification words them: each raw value is
    converted from nanoseconds to microseconds; the offset is replaced by the
    converted value when that exceeds it by more than [2^30]; the offset is
    subtracted.  The result is the list of written values and the final
    offset. *)
Fixpoint spec_timestamps (ofs : Z) (raws : list Z) : list Z * Z :=
  match raws with
  | [] => ([], ofs)
  | raw :: rest =>
      let us := raw / 1000 in
      let ofs' := if 2 ^ 30 <? us - ofs then us else ofs in
      let '(ws, final) := spec_timestamps ofs' rest in
      (us - ofs' :: ws, final)
  end.

(** A timestamp event, from its code and raw value. *)
Definition timestamp_event (ce : string * Z) : Event := AxisEvent ce.1 ce.2.

(** The codes that [consume] takes for timestamps on the device [self]. *)
Definition timestamp_code (self : UInputDevice.t) (code : string) : Prop :=
  code ∈ ["accel_ts"; "gyro_ts"]%string /\ axis_map self !! code = None.

Definition sample_timestamps : list (string * Z) :=
  [("gyro_ts"%string, 5000000); ("gyro_ts"%string, 2000000000000000);
   ("accel_ts"%string, 2000000000001000)].

Definition upload_event (request : Z) : InputEvent :=
  {| ev_type := EV_UINPUT; ev_code := UI_FF_UPLOAD; ev_value := request |}.

Definition erase_event (request : Z) : InputEvent :=
  {| ev_type := EV_UINPUT; ev_code := UI_FF_ERASE; ev_value := request |}.

(** An [EV_FF] event: a play event when [value] is not zero, a stop event
    when it is. *)
Definition ff_event (effect_id value : Z) : InputEvent :=
  {| ev_type := EV_FF; ev_code := effect_id; ev_value := value |}.

Definition rumble_effect (weak strong : Z) : ff_effect :=
  {| effect_type := FF_RUMBLE; rumble_weak := weak; rumble_strong := strong |}.

(** The event the specification expects for the magnitudes [weak] and
    [strong]: code ["main"], each magnitude divided by 65535. *)
Definition spec_rumble (weak strong : Z) : Event :=
  RumbleEvent "main"
    (PyFloat (fdiv (float_of_int weak) (float_of_int 65535)))
    (PyFloat (fdiv (float_of_int strong) (float_of_int 65535))).

Definition press_event : InputEvent :=
  {| ev_type := EV_KEY; ev_code := KEY_POWER; ev_value := 1 |}.

Definition release_event : InputEvent :=
  {| ev_type := EV_KEY; ev_code := KEY_POWER; ev_value := 0 |}.

(** Steam runs, the devices are there, nothing is ready, actions succeed. *)
Definition quiet_tick : tick :=
  {| exit_set := false; steam_running := true; press_found := true;
     hold_found := true; ready := None; perf_counter := float_of_int 1;
     action_ok := true |}.

Definition with_ready (tk : tick) (d : dev_id) (ev : InputEvent)
    (now : spec_float) : tick :=
  {| exit_set := exit_set tk; steam_running := steam_running tk;
     press_found := press_found tk; hold_found := hold_found tk;
     ready := Some (d, ev); perf_counter := now; action_ok := action_ok tk |}.

Definition with_exit (tk : tick) : tick :=
  {| exit_set := true; steam_running := steam_running tk;
     press_found := press_found tk; hold_found := hold_found tk;
     ready := ready tk; perf_counter := perf_counter tk;
     action_ok := action_ok tk |}.

(** The button is pressed at time [1.0] and never released; the watchdog is
    cancelled after two further timeouts. *)
Definition held_world : world :=
  fun n =>
    match n with
    | O => with_ready quiet_tick PressDev press_event (float_of_int 1)
    | S O | S (S O) => quiet_tick
    | _ => with_exit quiet_tick
    end.

(** The button is pressed at time [1.0] and released at time [3.5]. *)
Definition threshold_world : world :=
  fun n =>
    match n with
    | O => with_ready quiet_tick PressDev press_event (float_of_int 1)
    | S O => with_ready quiet_tick PressDev release_event (dyadic 7 (-1))
    | _ => with_exit quiet_tick
    end.

(** Steam never runs; the cancellation flag is set from the first sleep
    on. *)
Definition gating_world : world :=
  fun n =>
    {| exit_set := negb (n =? 0)%nat; steam_running := false;
       press_found := true; hold_found := true; ready := None;
       perf_counter := float_of_int 1; action_ok := true |}.

(** The release classification as the specification words it: an elapsed
    time of at least the threshold is a long press. *)
Definition release_classification_as_stated : Prop :=
  forall p curr : spec_float,
    float_truthy p = true ->
    SFleb LONG_PRESS_DELAY (fsub curr p) = true ->
    (classify (Some p) (Some release_event) curr).2 = long_press.



(** Two listed devices and a configuration that names the second. *)
Definition keyboard_device : Discovery.InputDevice :=
  {| Discovery.path := "/dev/input/event3";
     Discovery.dev_phys := "isa0060/serio0/input0";
     Discovery.grabbable := true |}.

Definition power_device : Discovery.InputDevice :=
  {| Discovery.path := "/dev/input/event0";
     Discovery.dev_phys := "LNXPWRBN/button/input0";
     Discovery.grabbable := true |}.

Definition timer_config : Discovery.PowerButtonConfig :=
  {| Discovery.type := "hold_emitted"; Discovery.phys := "LNXPWRBN";
     Discovery.hold_phys := None; Discovery.hold_grab := None;
     Discovery.hold_events := None |}.

Definition bogus_config : Discovery.PowerButtonConfig :=
  {| Discovery.type := "hold_bogus"; Discovery.phys := "LNXPWRBN";
     Discovery.hold_phys := None; Discovery.hold_grab := None;
     Discovery.hold_events := None |}.

(** ** Predicates on events and traces *)

(** The calls [consume] may make before the synchronisation. *)
Definition is_write (op : dev_op) : bool :=
  match op with
  | Write _ _ _ => true
  | _ => false
  end.

(** A timestamp written to the device is at most [2^30]. *)
Definition timestamp_bounded (op : dev_op) : Prop :=
  match op with
  | Write ty _ v => ty = EV_MSC -> v <= 2 ^ 30
  | _ => True
  end.

(** The events that [consume] passes over on the device [self]: an axis
    code that is not mapped and is not taken for a timestamp, a button code
    that is not mapped, and every other kind of event. *)
Definition ignored (self : UInputDevice.t) (ev : Event) : Prop :=
  match ev with
  | AxisEvent code _ =>
      axis_map self !! code = None
      /\ (output_timestamps self = false
          \/ code ∉ ["accel_ts"; "gyro_ts"]%string)
  | ButtonEvent code _ => btn_map self !! code = None
  | _ => True
  end.

(** The calls [produce] may make: the force-feedback handshakes. *)
Definition is_ff_op (op : dev_op) : bool :=
  match op with
  | BeginUpload _ | EndUpload _ | BeginErase _ | EndErase _ _ => true
  | _ => false
  end.

(** The inbound events that [produce] drops: everything that is neither a
    [EV_UINPUT] request nor a [EV_FF] event (the echoed timestamps among
    them), and the [EV_UINPUT] requests that are neither upload nor erase. *)
Definition dropped (ev : InputEvent) : Prop :=
  (ev_type ev <> EV_UINPUT /\ ev_type ev <> EV_FF)
  \/ (ev_type ev = EV_UINPUT
      /\ ev_code ev <> UI_FF_UPLOAD /\ ev_code ev <> UI_FF_ERASE).

(** A trace in which [systemctl suspend] is only ever called right after a
    short-press or long-press action; [after_press] tells whether the call
    before the trace was such an action. *)
Fixpoint suspend_guarded (after_press : bool) (tr : list action) : bool :=
  match tr with
  | [] => true
  | Suspend :: rest => after_press && suspend_guarded false rest
  | ShortPress :: rest | LongPress :: rest => suspend_guarded true rest
  | _ :: rest => suspend_guarded false rest
  end.

(** Following a trace of the timer variant from [held] (whether the power
    button device is held): the device is registered only when it is not
    held, closed only when it is held, waited on and acted for only while it
    is held, and the loop sleeps only when it is not held.  The result is
    whether the device is held at the end, or [None] when the trace breaks
    one of these rules. *)
Fixpoint timer_trace_held (held : bool) (tr : list action) : option bool :=
  match tr with
  | [] => Some held
  | Register PressDev :: rest =>
      if held then None else timer_trace_held true rest
  | CloseDev PressDev :: rest =>
      if held then timer_trace_held false rest else None
  | Sleep :: rest => if held then None else timer_trace_held false rest
  | Select _ :: rest | ShortPress :: rest | LongPress :: rest
  | Suspend :: rest =>
      if held then timer_trace_held true rest else None
  | _ :: _ => None
  end.

(** * Properties of the virtual output device *)

(** ** Examples of the embedding at concrete inputs *)

Example open_fresh_device :
  open handle7 fresh_device = (opened_device, [], inr [7]).
Proof. reflexivity. Qed.

Example consume_clamps_high :
  consume [AxisEvent "ls_y" 9; ButtonEvent "a" true; ButtonEvent "zz" true]
    opened_device
  = (opened_device, [Write EV_ABS 1 5; Write EV_KEY 304 1; Syn], inr tt).
Proof. vm_compute. reflexivity. Qed.

Example consume_negative_truncates_up :
  consume [AxisEvent "ls_x" (-3)] opened_device
  = (opened_device, [Write EV_ABS 0 (-2); Syn], inr tt).
Proof. vm_compute. reflexivity. Qed.

Example produce_stop_without_upload :
  produce [7] (fun _ => {| effect_type := 0; rumble_weak := 0; rumble_strong := 0 |})
    [[{| ev_type := EV_FF; ev_code := 0; ev_value := 0 |}]] opened_device
  = (opened_device, [], inr [RumbleEvent "main" (PyInt 0) (PyInt 0)]).
Proof. vm_compute. reflexivity. Qed.

Example produce_before_open_raises :
  produce [7] (fun _ => {| effect_type := 0; rumble_weak := 0; rumble_strong := 0 |})
    [] fresh_device
  = (fresh_device, [], inl AttributeError).
Proof. reflexivity. Qed.

(** ** [int()] is truncation toward zero *)

Lemma py_int_is_trunc (x : spec_float) (t : Z) :
  py_int x = inr t -> is_trunc x t.
Proof.
  destruct x as [s | s | | s m e]; simpl; try discriminate.
  - intros [= <-]. reflexivity.
  - intros [= <-].
    assert (Hnn : 0 <= Z.shiftl (Z.pos m) e) by (apply Z.shiftl_nonneg; lia).
    split.
    + destruct s; simpl; lia.
    + assert (Habs : Z.abs (cond_Zopp s (Z.shiftl (Z.pos m) e))
                     = Z.shiftl (Z.pos m) e) by (destruct s; simpl; lia).
      rewrite Habs. destruct (Z.leb_spec 0 e) as [He | He].
      * apply Z.shiftl_mul_pow2. exact He.
      * replace e with (- (- e)) at 1 3 by lia.
        rewrite Z.shiftl_opp_r, Z.shiftr_div_pow2 by lia.
        assert (Hd : 0 < 2 ^ (- e)) by (apply Z.pow_pos_nonneg; lia).
        pose proof (Z.mul_div_le (Z.pos m) _ Hd).
        pose proof (Z.mul_succ_div_gt (Z.pos m) _ Hd).
        lia.
Qed.

Lemma is_trunc_py_int (x : spec_float) (t : Z) :
  is_trunc x t -> py_int x = inr t.
Proof.
  destruct x as [s | s | | s m e]; simpl; try contradiction.
  - intros ->. reflexivity.
  - intros [Hs Hm]. f_equal.
    assert (Hq : Z.shiftl (Z.pos m) e = Z.abs t).
    { destruct (Z.leb_spec 0 e) as [He | He].
      - rewrite Z.shiftl_mul_pow2 by exact He. lia.
      - replace e with (- (- e)) at 1 by lia.
        rewrite Z.shiftl_opp_r, Z.shiftr_div_pow2 by lia.
        assert (Hd : 0 < 2 ^ (- e)) by (apply Z.pow_pos_nonneg; lia).
        symmetry. apply Z.div_unique with (r := Z.pos m - Z.abs t * 2 ^ (- e)); lia. }
    rewrite Hq. destruct s; simpl; lia.
Qed.

(** ** Unfolding [consume] *)

Lemma consume_open (self : UInputDevice.t) (h : UInput) (events : list Event) :
  dev self = Some h ->
  consume events self
  = (for_each consume_event events ;;; emit Syn) self.
Proof.
  intros Hdev. unfold consume at 1. unfold bind at 1, get. rewrite Hdev.
  destruct ((for_each consume_event events ;;; emit Syn) self) as [[s2 o2] r].
  reflexivity.
Qed.

(** One event that is consumed without an exception. *)
Lemma consume_one (self self' : UInputDevice.t) (h : UInput) (ev : Event)
    (ops : list dev_op) :
  consume_event ev self = (self', ops, inr tt) ->
  dev self = Some h ->
  consume [ev] self = (self', ops ++ [Syn], inr tt).
Proof.
  intros Hev Hdev. rewrite (consume_open _ _ _ Hdev).
  unfold for_each, bind, emit, ret. rewrite Hev.
  rewrite app_nil_r. reflexivity.
Qed.

Lemma consume_event_axis (self : UInputDevice.t) (code : string) (value : Z)
    (ax : AX) (t : Z) :
  axis_map self !! code = Some ax ->
  py_int (fadd (fmul (scale ax) (float_of_int value)) (offset ax)) = inr t ->
  consume_event (AxisEvent code value) self
  = (self, [Write EV_ABS (ax_id ax) (apply_bounds (bounds ax) t)], inr tt).
Proof.
  intros Hax Ht. unfold consume_event, bind, get. rewrite Hax.
  unfold axis_float. rewrite Ht. reflexivity.
Qed.

(** ** Axis mapping *)

(** C1, as stated, fails: with [scale = 0.75], [offset = 0] and no bounds,
    the value [1] is mapped to [0.75]; rounding gives [1], while [consume]
    writes [int(0.75) = 0]. *)
Lemma axis_mapping_round_counterexample :
  spec_round (axis_float ax_three_quarters 1) = inr 1
  /\ consume [AxisEvent "ls_x" 1] opened_device
     = (opened_device, [Write EV_ABS 0 0; Syn], inr tt)
  /\ ~ axis_mapping_as_stated.
Proof.
  assert (Hr : spec_round (axis_float ax_three_quarters 1) = inr 1)
    by (vm_compute; reflexivity).
  assert (Hc : consume [AxisEvent "ls_x" 1] opened_device
               = (opened_device, [Write EV_ABS 0 0; Syn], inr tt))
    by (vm_compute; reflexivity).
  repeat split; try assumption.
  intros Hclaim.
  specialize (Hclaim opened_device handle7 "ls_x"%string 1 ax_three_quarters 1
                eq_refl eq_refl Hr).
  rewrite Hc in Hclaim. discriminate Hclaim.
Qed.

(** C1 (amended): for every axis event whose code is in the axis map and
    whose scaled value [scale * value + offset] is finite, the loop body of
    [consume] writes the integer part [t] of that value (truncation toward
    zero, not rounding), replaced by [min(max(t, lo), hi)] when bounds are
    present; the device state is left as it was, so the written value
    depends on the input value and the mapping entry only.  On an open
    device [consume] of that event is this write followed by the
    synchronisation. *)
Theorem consume_axis_truncates
    (self : UInputDevice.t) (h : UInput) (code : string) (value : Z)
    (ax : AX) (t : Z) :
  dev self = Some h ->
  axis_map self !! code = Some ax ->
  is_trunc (fadd (fmul (scale ax) (float_of_int value)) (offset ax)) t ->
  consume_event (AxisEvent code value) self
  = (self,
     [Write EV_ABS (ax_id ax)
        (match bounds ax with
         | Some (lo, hi) => Z.min (Z.max t lo) hi
         | None => t
         end)],
     inr tt)
  /\ consume [AxisEvent code value] self
     = (self,
        [Write EV_ABS (ax_id ax)
           (match bounds ax with
            | Some (lo, hi) => Z.min (Z.max t lo) hi
            | None => t
            end); Syn],
        inr tt).
Proof.
  intros Hdev Hax Ht. apply is_trunc_py_int in Ht.
  pose proof (consume_event_axis _ _ _ _ _ Hax Ht) as Hev.
  split; [exact Hev |].
  rewrite (consume_one _ _ _ _ _ Hev Hdev). reflexivity.
Qed.

Lemma consume_axis_truncates_witness :
  consume [AxisEvent "ls_x" 1] opened_device
  = (opened_device, [Write EV_ABS 0 0; Syn], inr tt).
Proof.
  apply (proj2 (consume_axis_truncates opened_device handle7 "ls_x" 1
                  ax_three_quarters 0 eq_refl eq_refl
                  ltac:(apply py_int_is_trunc; vm_compute; reflexivity))).
Defined.

(** ** A closed device ignores [consume] *)

(** C10: on a device that was never opened ([dev] is [None]), [consume]
    returns normally for every event sequence, makes no call on a device,
    not even the synchronisation, and leaves every attribute as it was. *)
Theorem consume_never_opened_noop
    (self : UInputDevice.t) (events : list Event) :
  dev self = None ->
  consume events self = (self, [], inr tt).
Proof.
  intros Hdev. unfold consume, bind, get. rewrite Hdev. reflexivity.
Qed.

Lemma consume_never_opened_noop_witness :
  consume [AxisEvent "ls_x" 1; AxisEvent "gyro_ts" 5000; ButtonEvent "a" true]
    fresh_device
  = (fresh_device, [], inr tt).
Proof.
  apply (consume_never_opened_noop fresh_device). reflexivity.
Defined.

(** ** Timestamps *)

Lemma set_ofs_ofs (self : UInputDevice.t) : set_ofs self (ofs self) = self.
Proof. destruct self. reflexivity. Qed.

Lemma consume_event_timestamp (self : UInputDevice.t) (code : string) (raw : Z) :
  output_timestamps self = true ->
  timestamp_code self code ->
  consume_event (AxisEvent code raw) self
  = (let ofs' := if 2 ^ 30 <? raw / 1000 - ofs self
                 then raw / 1000 else ofs self in
     (set_ofs self ofs', [Write EV_MSC MSC_TIMESTAMP (raw / 1000 - ofs')],
      inr tt)).
Proof.
  intros Hts [Hin Hax]. unfold consume_event, bind, get. rewrite Hax, Hts.
  rewrite (bool_decide_eq_true_2 _ Hin). simpl.
  replace (ofs self + 2 ^ 30 <? raw / 1000)
    with (2 ^ 30 <? raw / 1000 - ofs self); [reflexivity |].
  destruct (Z.ltb_spec (2 ^ 30) (raw / 1000 - ofs self));
    destruct (Z.ltb_spec (ofs self + 2 ^ 30) (raw / 1000)); lia.
Qed.

Lemma for_each_cons_ok {S O A : Type} (body : A -> M (S := S) (O := O) unit)
    (x : A) (xs : list A) (s s1 : S) (o1 : list O) :
  body x s = (s1, o1, inr tt) ->
  for_each body (x :: xs) s
  = (let '(s2, o2, r) := for_each body xs s1 in (s2, o1 ++ o2, r)).
Proof. intros Hx. cbn [for_each]. unfold bind. rewrite Hx. reflexivity. Qed.

Lemma for_each_timestamps (tsevs : list (string * Z)) :
  forall self : UInputDevice.t,
    output_timestamps self = true ->
    Forall (fun ce => timestamp_code self ce.1) tsevs ->
    for_each consume_event (timestamp_event <$> tsevs) self
    = (set_ofs self (spec_timestamps (ofs self) tsevs.*2).2,
       Write EV_MSC MSC_TIMESTAMP <$> (spec_timestamps (ofs self) tsevs.*2).1,
       inr tt).
Proof.
  induction tsevs as [| [code raw] rest IH]; intros self Hts Hall.
  - simpl. rewrite set_ofs_ofs. reflexivity.
  - apply Forall_cons in Hall as [Hc Hrest].
    rewrite !fmap_cons.
    rewrite (for_each_cons_ok _ _ _ _ _ _
               (consume_event_timestamp self code raw Hts Hc)).
    set (ofs' := if 2 ^ 30 <? raw / 1000 - ofs self
                 then raw / 1000 else ofs self).
    rewrite (IH (set_ofs self ofs') Hts Hrest).
    cbn [spec_timestamps ofs set_ofs snd]. fold ofs'.
    destruct (spec_timestamps ofs' rest.*2) as [ws final].
    destruct self. reflexivity.
Qed.

Lemma spec_timestamps_app (o : Z) (l1 l2 : list Z) :
  spec_timestamps o (l1 ++ l2)
  = ((spec_timestamps o l1).1
       ++ (spec_timestamps (spec_timestamps o l1).2 l2).1,
     (spec_timestamps (spec_timestamps o l1).2 l2).2).
Proof.
  revert o. induction l1 as [| raw l1 IH]; intros o.
  - simpl. destruct (spec_timestamps o l2). reflexivity.
  - cbn [app spec_timestamps].
    set (o' := if 2 ^ 30 <? raw / 1000 - o then raw / 1000 else o).
    rewrite (IH o').
    destruct (spec_timestamps o' l1) as [w1 o1]. reflexivity.
Qed.

(** Inside a window no reset happens. *)
Lemma spec_timestamps_window (o : Z) (raws : list Z) :
  Forall (fun r => r / 1000 - o <= 2 ^ 30) raws ->
  spec_timestamps o raws = ((fun r => r / 1000 - o) <$> raws, o).
Proof.
  induction raws as [| raw rest IH]; intros Hall.
  - reflexivity.
  - apply Forall_cons in Hall as [Hr Hrest].
    cbn [spec_timestamps].
    destruct (Z.ltb_spec (2 ^ 30) (raw / 1000 - o)) as [Hlt | _]; [lia |].
    rewrite (IH Hrest). reflexivity.
Qed.

Lemma window_writes_sorted (o : Z) (raws : list Z) :
  StronglySorted Z.le raws ->
  StronglySorted Z.le ((fun r => r / 1000 - o) <$> raws).
Proof.
  induction 1 as [| r rest Hs IH Hr]; [constructor |].
  rewrite fmap_cons. constructor; [exact IH |].
  apply Forall_fmap. eapply Forall_impl; [exact Hr |].
  intros r' Hle. simpl.
  pose proof (Z.div_le_mono r r' 1000 ltac:(lia) Hle). lia.
Qed.

(** C4: on an open device that outputs timestamps, [consume] writes for
    every timestamp event the raw value divided by 1000 minus the rolling
    offset, after having reset the offset to that value when it exceeds the
    offset by more than [2^30] (this is [spec_timestamps]); and when an event
    resets the offset and the raw values that follow do not decrease and stay
    within [2^30] of the new offset, the values written from the reset on
    ([ws_win]) are non-negative and do not decrease. *)
Theorem consume_timestamps_offset
    (self : UInputDevice.t) (h : UInput) (tsevs : list (string * Z)) :
  dev self = Some h ->
  output_timestamps self = true ->
  Forall (fun ce => timestamp_code self ce.1) tsevs ->
  consume (timestamp_event <$> tsevs) self
  = (set_ofs self (spec_timestamps (ofs self) tsevs.*2).2,
     (Write EV_MSC MSC_TIMESTAMP <$> (spec_timestamps (ofs self) tsevs.*2).1)
       ++ [Syn],
     inr tt)
  /\ forall (pre : list Z) (raw0 : Z) (rest : list Z),
       tsevs.*2 = pre ++ raw0 :: rest ->
       2 ^ 30 < raw0 / 1000 - (spec_timestamps (ofs self) pre).2 ->
       StronglySorted Z.le (raw0 :: rest) ->
       Forall (fun r => r / 1000 - raw0 / 1000 <= 2 ^ 30) rest ->
       exists ws_pre ws_win : list Z,
         consume (timestamp_event <$> tsevs) self
         = (set_ofs self (raw0 / 1000),
            (Write EV_MSC MSC_TIMESTAMP <$> (ws_pre ++ ws_win)) ++ [Syn],
            inr tt)
         /\ length ws_pre = length pre
         /\ length ws_win = S (length rest)
         /\ Forall (fun w => 0 <= w) ws_win
         /\ StronglySorted Z.le ws_win.
Proof.
  intros Hdev Hts Hall.
  assert (Hrun : consume (timestamp_event <$> tsevs) self
    = (set_ofs self (spec_timestamps (ofs self) tsevs.*2).2,
       (Write EV_MSC MSC_TIMESTAMP <$> (spec_timestamps (ofs self) tsevs.*2).1)
         ++ [Syn],
       inr tt)).
  { rewrite (consume_open _ _ _ Hdev). unfold bind.
    rewrite (for_each_timestamps tsevs self Hts Hall). reflexivity. }
  split; [exact Hrun |].
  intros pre raw0 rest Hsplit Hreset Hsorted Hwin.
  rewrite Hrun, Hsplit, spec_timestamps_app.
  destruct (spec_timestamps (ofs self) pre) as [ws_pre o1] eqn:Hpre.
  cbn [fst snd] in *.
  cbn [spec_timestamps].
  destruct (Z.ltb_spec (2 ^ 30) (raw0 / 1000 - o1)) as [_ | Hge]; [| lia].
  rewrite (spec_timestamps_window (raw0 / 1000) rest Hwin).
  cbn [fst snd].
  exists ws_pre, ((fun r => r / 1000 - raw0 / 1000) <$> (raw0 :: rest)).
  rewrite fmap_cons. simpl length. rewrite length_fmap.
  replace (raw0 / 1000 - raw0 / 1000) with 0 by lia.
  assert (Hlen : forall o l, length (spec_timestamps o l).1 = length l).
  { intros o l. revert o. induction l as [| r l IHl]; intros o; [reflexivity |].
    cbn [spec_timestamps].
    specialize (IHl (if 2 ^ 30 <? r / 1000 - o then r / 1000 else o)).
    destruct (spec_timestamps _ l). simpl in *. lia. }
  repeat split.
  - specialize (Hlen (ofs self) pre). rewrite Hpre in Hlen. exact Hlen.
  - apply StronglySorted_cons in Hsorted as [Hfirst _].
    constructor; [lia |]. apply Forall_fmap.
    eapply Forall_impl; [exact Hfirst |]. intros r Hle. simpl.
    pose proof (Z.div_le_mono raw0 r 1000 ltac:(lia) Hle). lia.
  - replace 0 with (raw0 / 1000 - raw0 / 1000) by lia.
    apply (window_writes_sorted (raw0 / 1000) (raw0 :: rest) Hsorted).
Qed.

Lemma consume_timestamps_offset_witness :
  consume (timestamp_event <$> sample_timestamps) opened_device
  = (set_ofs opened_device 2000000000000,
     [Write EV_MSC MSC_TIMESTAMP 5000; Write EV_MSC MSC_TIMESTAMP 0;
      Write EV_MSC MSC_TIMESTAMP 1; Syn],
     inr tt).
Proof.
  apply (proj1 (consume_timestamps_offset opened_device handle7
                  sample_timestamps eq_refl eq_refl
                  ltac:(repeat constructor))).
Defined.

(** ** Force feedback *)

Lemma produce_open (self : UInputDevice.t) (h : UInput) (n : Z) (fds : list Z)
    (uploads : Z -> ff_effect) (batches : list (list InputEvent)) :
  fd self = Val n -> n <> 0 -> n ∈ fds -> dev self = Some h ->
  produce fds uploads batches self = drain uploads batches self.
Proof.
  intros Hfd Hn Hin Hdev. unfold produce, bind, get. rewrite Hfd.
  apply Z.eqb_neq in Hn. rewrite Hn, (bool_decide_eq_true_2 _ Hin), Hdev.
  simpl. destruct (drain uploads batches self) as [[s o] r].
  reflexivity.
Qed.

Lemma produce_event_upload_rumble (self : UInputDevice.t)
    (uploads : Z -> ff_effect) (request weak strong : Z) :
  uploads request = rumble_effect weak strong ->
  produce_event uploads (upload_event request) self
  = (set_rumble self (Some (spec_rumble weak strong)),
     [BeginUpload request; EndUpload request], inr []).
Proof.
  intros Hup. unfold produce_event, upload_event. cbn [ev_type ev_code ev_value].
  change (EV_UINPUT =? EV_MSC) with false.
  change (EV_UINPUT =? EV_UINPUT) with true.
  change (UI_FF_UPLOAD =? UI_FF_UPLOAD) with true.
  cbn [andb]. unfold bind, emit, get, put, ret. rewrite Hup.
  reflexivity.
Qed.

Lemma produce_event_play (self : UInputDevice.t) (uploads : Z -> ff_effect)
    (effect_id value : Z) (r : Event) :
  value <> 0 ->
  rumble self = Some r ->
  produce_event uploads (ff_event effect_id value) self = (self, [], inr [r]).
Proof.
  intros Hv Hr. apply Z.eqb_neq in Hv.
  unfold produce_event, ff_event. cbn [ev_type ev_code ev_value].
  change (EV_FF =? EV_MSC) with false.
  change (EV_FF =? EV_UINPUT) with false.
  change (EV_FF =? EV_FF) with true.
  rewrite Hv. cbn [andb negb]. unfold bind, get. rewrite Hr. reflexivity.
Qed.

Lemma for_collect_cons_ok {S O A B : Type}
    (body : A -> M (S := S) (O := O) (list B))
    (x : A) (xs : list A) (s s1 : S) (o1 : list O) (r1 : list B) :
  body x s = (s1, o1, inr r1) ->
  for_collect body (x :: xs) s
  = (let '(s2, o2, r) := for_collect body xs s1 in
     (s2, o1 ++ o2,
      match r with
      | inr r2 => inr (r1 ++ r2)
      | inl e => inl e
      end)).
Proof.
  intros Hx. cbn [for_collect]. unfold bind, ret. rewrite Hx.
  destruct (for_collect body xs s1) as [[s2 o2] [e | r2]];
    rewrite ?app_nil_r; reflexivity.
Qed.

Lemma for_collect_cons_raise {S O A B : Type}
    (body : A -> M (S := S) (O := O) (list B))
    (x : A) (xs : list A) (s s1 : S) (o1 : list O) (e : exn) :
  body x s = (s1, o1, inl e) ->
  for_collect body (x :: xs) s = (s1, o1, inl e).
Proof. intros Hx. cbn [for_collect]. unfold bind. rewrite Hx. reflexivity. Qed.

(** C5: on an open device whose descriptor is ready, the upload of a rumble
    effect with raw magnitudes [weak] and [strong] followed by a play event
    (an [EV_FF] event with a non-zero value) makes [produce] emit the event
    with code ["main"] and the magnitudes [weak / 65535] and
    [strong / 65535], whether the two arrive in one call or in two; for
    [weak = 32768] and [strong = 65535] the strong magnitude is [1.0] and
    the weak one lies between [0.5] and [0.5 + 2^-16]. *)
Theorem rumble_upload_play_roundtrip
    (self : UInputDevice.t) (h : UInput) (n : Z) (fds : list Z)
    (uploads : Z -> ff_effect) (request weak strong effect_id value : Z) :
  fd self = Val n -> n <> 0 -> n ∈ fds -> dev self = Some h ->
  uploads request = rumble_effect weak strong ->
  value <> 0 ->
  produce fds uploads [[upload_event request; ff_event effect_id value]] self
  = (set_rumble self (Some (spec_rumble weak strong)),
     [BeginUpload request; EndUpload request],
     inr [spec_rumble weak strong])
  /\ produce fds uploads [[upload_event request]] self
     = (set_rumble self (Some (spec_rumble weak strong)),
        [BeginUpload request; EndUpload request], inr [])
  /\ produce fds uploads [[ff_event effect_id value]]
       (set_rumble self (Some (spec_rumble weak strong)))
     = (set_rumble self (Some (spec_rumble weak strong)), [],
        inr [spec_rumble weak strong])
  /\ spec_rumble 32768 65535
     = RumbleEvent "main"
         (PyFloat (fdiv (float_of_int 32768) (float_of_int 65535)))
         (PyFloat (float_of_int 1))
  /\ SFltb (dyadic 1 (-1)) (fdiv (float_of_int 32768) (float_of_int 65535))
     = true
  /\ SFltb (fdiv (float_of_int 32768) (float_of_int 65535))
       (dyadic 32769 (-16))
     = true.
Proof.
  intros Hfd Hn Hin Hdev Hup Hv.
  pose proof (produce_event_upload_rumble self uploads request weak strong Hup)
    as Hupload.
  pose proof (produce_event_play
                (set_rumble self (Some (spec_rumble weak strong)))
                uploads effect_id value (spec_rumble weak strong) Hv eq_refl)
    as Hplay.
  repeat split.
  - rewrite (produce_open _ _ _ _ _ _ Hfd Hn Hin Hdev). unfold drain.
    assert (Hbatch :
      for_collect (produce_event uploads)
        [upload_event request; ff_event effect_id value] self
      = (set_rumble self (Some (spec_rumble weak strong)),
         [BeginUpload request; EndUpload request],
         inr [spec_rumble weak strong])).
    { rewrite (for_collect_cons_ok _ _ _ _ _ _ _ Hupload).
      rewrite (for_collect_cons_ok _ _ _ _ _ _ _ Hplay).
      reflexivity. }
    rewrite (for_collect_cons_ok _ _ _ _ _ _ _ Hbatch). reflexivity.
  - rewrite (produce_open _ _ _ _ _ _ Hfd Hn Hin Hdev). unfold drain.
    assert (Hbatch :
      for_collect (produce_event uploads) [upload_event request] self
      = (set_rumble self (Some (spec_rumble weak strong)),
         [BeginUpload request; EndUpload request], inr [])).
    { rewrite (for_collect_cons_ok _ _ _ _ _ _ _ Hupload). reflexivity. }
    rewrite (for_collect_cons_ok _ _ _ _ _ _ _ Hbatch). reflexivity.
  - rewrite (produce_open _ h n fds); try assumption. unfold drain.
    assert (Hbatch :
      for_collect (produce_event uploads) [ff_event effect_id value]
        (set_rumble self (Some (spec_rumble weak strong)))
      = (set_rumble self (Some (spec_rumble weak strong)), [],
         inr [spec_rumble weak strong])).
    { rewrite (for_collect_cons_ok _ _ _ _ _ _ _ Hplay). reflexivity. }
    rewrite (for_collect_cons_ok _ _ _ _ _ _ _ Hbatch). reflexivity.
Qed.

Lemma rumble_upload_play_roundtrip_witness :
  produce [7] (fun _ => rumble_effect 32768 65535)
    [[upload_event 3; ff_event 0 1]] opened_device
  = (set_rumble opened_device (Some (spec_rumble 32768 65535)),
     [BeginUpload 3; EndUpload 3],
     inr [spec_rumble 32768 65535]).
Proof.
  apply (proj1 (rumble_upload_play_roundtrip opened_device handle7 7 [7]
                  (fun _ => rumble_effect 32768 65535) 3 32768 65535 0 1
                  eq_refl ltac:(lia) ltac:(constructor) eq_refl eq_refl
                  ltac:(lia))).
Defined.

(** C6 (the source fails it): an erase request makes [produce] raise.  The
    erase is begun on the device, then [ev.end_erase(erase)] is called on the
    event instead of the device, which raises [AttributeError]: the erase is
    never completed, the events that follow in the queue (here a stop event)
    are not processed and [produce] returns nothing. *)
Theorem produce_erase_raises (uploads : Z -> ff_effect) (request : Z) :
  produce [7] uploads [[erase_event request; ff_event 0 0]] opened_device
  = (opened_device, [BeginErase request], inl AttributeError).
Proof.
  rewrite (produce_open opened_device handle7 7 [7] uploads _
             eq_refl ltac:(lia) ltac:(constructor) eq_refl).
  unfold drain.
  assert (Hbatch :
    for_collect (produce_event uploads) [erase_event request; ff_event 0 0]
      opened_device
    = (opened_device, [BeginErase request], inl AttributeError)).
  { apply for_collect_cons_raise. reflexivity. }
  apply for_collect_cons_raise. exact Hbatch.
Qed.

(** The upload path, for comparison, completes its request on the device. *)
Lemma produce_upload_completes (uploads : Z -> ff_effect) (request : Z) :
  uploads request = {| effect_type := 0; rumble_weak := 0; rumble_strong := 0 |} ->
  produce [7] uploads [[upload_event request; ff_event 0 0]] opened_device
  = (opened_device, [BeginUpload request; EndUpload request],
     inr [RumbleEvent "main" (PyInt 0) (PyInt 0)]).
Proof.
  intros Hup.
  rewrite (produce_open opened_device handle7 7 [7] uploads _
             eq_refl ltac:(lia) ltac:(constructor) eq_refl).
  unfold drain.
  assert (Hev : produce_event uploads (upload_event request) opened_device
                = (opened_device, [BeginUpload request; EndUpload request],
                   inr [])).
  { unfold produce_event, upload_event. cbn [ev_type ev_code ev_value].
    change (EV_UINPUT =? EV_MSC) with false.
    change (EV_UINPUT =? EV_UINPUT) with true.
    change (UI_FF_UPLOAD =? UI_FF_UPLOAD) with true.
    cbn [andb]. unfold bind, emit, get, put, ret. rewrite Hup. reflexivity. }
  assert (Hbatch :
    for_collect (produce_event uploads) [upload_event request; ff_event 0 0]
      opened_device
    = (opened_device, [BeginUpload request; EndUpload request],
       inr [RumbleEvent "main" (PyInt 0) (PyInt 0)])).
  { rewrite (for_collect_cons_ok _ _ _ _ _ _ _ Hev). reflexivity. }
  rewrite (for_collect_cons_ok _ _ _ _ _ _ _ Hbatch). reflexivity.
Qed.

(** ** Closing *)

(** C8 (the source fails it): [close] tests [self.dev] and then clears
    [self.input] and [self.fd], never [self.dev]; a second [close] therefore
    calls [close] on the handle a second time. *)
Theorem close_twice_closes_handle_twice (exit1 exit2 : bool) :
  (close exit1 ;;; close exit2) opened_device
  = (set_fd (set_input opened_device PyNone) PyNone, [Close; Close], inr true)
  /\ dev (set_fd (set_input opened_device PyNone) PyNone) = Some handle7.
Proof. split; reflexivity. Qed.

(** What does hold of [close]: it returns [True], and on a device that was
    never opened it makes no call on a handle. *)
Lemma close_returns_true (self : UInputDevice.t) (exit : bool) :
  (close exit self).2 = inr true
  /\ (dev self = None -> (close exit self).1.2 = []).
Proof.
  unfold close, bind, get, put, emit, ret.
  destruct (dev self); split; try reflexivity; intros; try discriminate.
Qed.

(** After [close] the guard of [consume] still sees a device. *)
Lemma consume_after_close_writes (exit : bool) :
  (close exit ;;; consume [ButtonEvent "a" true]) opened_device
  = (set_fd (set_input opened_device PyNone) PyNone,
     [Close; Write EV_KEY 304 1; Syn], inr tt).
Proof. vm_compute. reflexivity. Qed.

(** * Properties of the power-button watchdog *)

Example timer_short_press :
  power_button_timer 10 threshold_world false None 0
  = ([Register PressDev; Select STEAM_WAIT_DELAY; Select LONG_PRESS_DELAY;
      ShortPress; CloseDev PressDev], Returned).
Proof. vm_compute. reflexivity. Qed.

(** ** The timer variant: release *)

(** C3, as stated, fails at the threshold: a press at [1.0] released at
    [3.5] has elapsed exactly [LONG_PRESS_DELAY = 2.5], and is classified as
    a short press, because the source compares with [>]. *)
Lemma release_at_threshold_counterexample :
  fsub (dyadic 7 (-1)) (float_of_int 1) = LONG_PRESS_DELAY
  /\ classify (Some (float_of_int 1)) (Some release_event) (dyadic 7 (-1))
     = (None, short_press)
  /\ ~ release_classification_as_stated.
Proof.
  assert (Hc : classify (Some (float_of_int 1)) (Some release_event)
                 (dyadic 7 (-1)) = (None, short_press))
    by (vm_compute; reflexivity).
  repeat split; try (vm_compute; reflexivity).
  intros Hclaim.
  specialize (Hclaim (float_of_int 1) (dyadic 7 (-1)) eq_refl eq_refl).
  rewrite Hc in Hclaim. discriminate Hclaim.
Qed.

(** C3 (amended): in the timer variant a release of the power key while a
    press is pending, started at [p], clears the pending press and is a long
    press when the elapsed time [curr - p] is greater than the threshold and
    a short press otherwise, so also when it equals the threshold; the loop
    then calls the corresponding action (and suspends when that fails) and
    goes on with no press pending. *)
Theorem timer_release_classification
    (w : world) (n fuel : nat) (p curr : spec_float) :
  float_truthy p = true ->
  exit_set (w n) = false ->
  steam_running (w n) = true ->
  ready (w n) = Some (PressDev, release_event) ->
  perf_counter (w n) = curr ->
  classify (Some p) (Some release_event) curr
  = (None,
     if fgtb (fsub curr p) LONG_PRESS_DELAY then long_press else short_press)
  /\ power_button_timer (S fuel) w true (Some p) n
     = (Select LONG_PRESS_DELAY
          :: (if fgtb (fsub curr p) LONG_PRESS_DELAY
              then LongPress else ShortPress)
          :: (if action_ok (w n) then [] else [Suspend])
          ++ (power_button_timer fuel w true None (S n)).1,
        (power_button_timer fuel w true None (S n)).2)
  /\ (fsub curr p = LONG_PRESS_DELAY ->
      classify (Some p) (Some release_event) curr = (None, short_press)).
Proof.
  intros Hp Hexit Hsteam Hready Hnow.
  assert (Hc : classify (Some p) (Some release_event) curr
               = (None,
                  if fgtb (fsub curr p) LONG_PRESS_DELAY
                  then long_press else short_press)).
  { unfold classify, release_event. cbn [ev_type ev_code ev_value].
    change (EV_KEY =? EV_KEY) with true.
    change (KEY_POWER =? KEY_POWER) with true.
    change (0 =? 0) with true. cbn [andb negb]. rewrite Hp. reflexivity. }
  split; [exact Hc |]. split.
  - cbn [power_button_timer]. rewrite Hexit, Hsteam. cbn [negb].
    unfold timer_ready. rewrite Hready, Hnow, Hc.
    unfold truthy_time. rewrite Hp.
    destruct (power_button_timer fuel w true None (S n)) as [tr st].
    destruct (fgtb (fsub curr p) LONG_PRESS_DELAY); reflexivity.
  - intros Heq. rewrite Hc, Heq. reflexivity.
Qed.

Lemma timer_release_classification_witness :
  classify (Some (float_of_int 1)) (Some release_event) (dyadic 7 (-1))
  = (None,
     if fgtb (fsub (dyadic 7 (-1)) (float_of_int 1)) LONG_PRESS_DELAY
     then long_press else short_press).
Proof.
  apply (proj1 (timer_release_classification threshold_world 1 5
                  (float_of_int 1) (dyadic 7 (-1))
                  eq_refl eq_refl eq_refl eq_refl eq_refl)).
Defined.

(** ** The timer variant: timeout *)

(** C2 (the source fails it): a timeout while a press is pending is a long
    press, but [pressed_time] is kept, unlike on release; with the button
    held from time [1.0] on and no release, each further timeout calls the
    long-press action again. *)
Theorem timer_timeout_keeps_press_pending (curr : spec_float) :
  classify (Some (float_of_int 1)) None curr
  = (Some (float_of_int 1), long_press)
  /\ power_button_timer 10 held_world false None 0
     = ([Register PressDev; Select STEAM_WAIT_DELAY;
         Select LONG_PRESS_DELAY; LongPress;
         Select LONG_PRESS_DELAY; LongPress;
         CloseDev PressDev], Returned).
Proof. split; vm_compute; reflexivity. Qed.

(** The same holds for every pending press. *)
Lemma classify_timeout_pending (p curr : spec_float) :
  float_truthy p = true ->
  classify (Some p) None curr = (Some p, long_press).
Proof. intros Hp. unfold classify, truthy_time. rewrite Hp. reflexivity. Qed.

(** ** The two-device variant: the hold sequence *)

Lemma hold_match_in_range (hs : list hold_event) (c : nat) (chk : hold_event)
    (expected : hold_event) :
  hs !! c = Some expected ->
  hold_match hs c chk
  = inr (if bool_decide (chk = expected)
         then (if (S c =? length hs)%nat then (O, true) else (S c, false))
         else (O, false)).
Proof.
  intros Hc. pose proof (lookup_lt_Some _ _ _ Hc) as Hlt.
  unfold hold_match.
  destruct (Nat.leb_spec (length hs) c) as [Hle | _]; [lia |].
  rewrite Hc. destruct (bool_decide (chk = expected)).
  - destruct (S c =? length hs)%nat; reflexivity.
  - destruct (Nat.eqb_spec 0 (length hs)) as [H0 | _]; [lia | reflexivity].
Qed.

(** C7: for a non-empty hold sequence [hs] and a cursor [c] inside it, an
    event equal to the expected triple advances the cursor, and at the end of
    the sequence executes the long press once and resets the cursor to 0;
    any other event resets the cursor to 0 and executes nothing; the cursor
    stays inside the sequence.  For the sequence [(KEY,A,1); (KEY,B,1)] the
    events [A,1; B,1] execute one long press, and so do [A,1; C,1; A,1; B,1]
    for a key [C] other than [B]. *)
Theorem hold_sequence_matcher
    (hs : list hold_event) (c : nat) (chk : hold_event) (ok : bool)
    (A B C : Z) :
  hs <> [] ->
  (c < length hs)%nat ->
  C <> B ->
  (hs !! c = Some chk ->
   hold_match hs c chk
   = inr (if (S c =? length hs)%nat then (O, true) else (S c, false)))
  /\ (hs !! c <> Some chk -> hold_match hs c chk = inr (O, false))
  /\ (exists (c' : nat) (fired : bool),
        hold_match hs c chk = inr (c', fired)
        /\ (c' < length hs)%nat
        /\ (fired = true -> c' = O /\ S c = length hs /\ hs !! c = Some chk)
        /\ isa_handle hs c HoldDev
             {| ev_type := chk.1.1; ev_code := chk.1.2; ev_value := chk.2 |} ok
           = inr (c', if fired
                      then LongPress :: (if ok then [] else [Suspend])
                      else []))
  /\ hold_run [(EV_KEY, A, 1); (EV_KEY, B, 1)] O
       [(EV_KEY, A, 1); (EV_KEY, B, 1)] = inr (O, 1%nat)
  /\ hold_run [(EV_KEY, A, 1); (EV_KEY, B, 1)] O
       [(EV_KEY, A, 1); (EV_KEY, C, 1); (EV_KEY, A, 1); (EV_KEY, B, 1)]
     = inr (O, 1%nat).
Proof.
  intros Hne Hlt HCB.
  destruct (lookup_lt_is_Some_2 hs c Hlt) as [expected Hexp].
  pose proof (hold_match_in_range hs c chk expected Hexp) as Hm.
  split; [| split; [| split; [| split]]].
  - intros Hc. rewrite Hexp in Hc. injection Hc as <-.
    rewrite Hm, bool_decide_eq_true_2 by reflexivity. reflexivity.
  - intros Hc. rewrite Hm, bool_decide_eq_false_2; [reflexivity |].
    intros ->. apply Hc. exact Hexp.
  - destruct chk as [[ty co] va].
    unfold isa_handle. cbn [ev_type ev_code ev_value fst snd]. rewrite Hm.
    case_bool_decide as Heq.
    + subst expected.
      destruct (Nat.eqb_spec (S c) (length hs)) as [Hend | Hmid].
      * exists O, true.
        split; [reflexivity |]. split; [lia |].
        split; [intros _; auto |]. reflexivity.
      * exists (S c), false.
        split; [reflexivity |]. split; [lia |].
        split; [discriminate |]. reflexivity.
    + exists O, false.
      split; [reflexivity |]. split; [lia |].
      split; [discriminate |]. reflexivity.
  - cbn [hold_run].
    rewrite (hold_match_in_range [(EV_KEY, A, 1); (EV_KEY, B, 1)] O _
               (EV_KEY, A, 1) eq_refl).
    rewrite bool_decide_eq_true_2 by reflexivity. cbn [Nat.eqb length].
    rewrite (hold_match_in_range [(EV_KEY, A, 1); (EV_KEY, B, 1)] 1%nat _
               (EV_KEY, B, 1) eq_refl).
    rewrite bool_decide_eq_true_2 by reflexivity. reflexivity.
  - cbn [hold_run].
    rewrite (hold_match_in_range [(EV_KEY, A, 1); (EV_KEY, B, 1)] O _
               (EV_KEY, A, 1) eq_refl).
    rewrite bool_decide_eq_true_2 by reflexivity. cbn [Nat.eqb length].
    rewrite (hold_match_in_range [(EV_KEY, A, 1); (EV_KEY, B, 1)] 1%nat
               (EV_KEY, C, 1) (EV_KEY, B, 1) eq_refl).
    rewrite bool_decide_eq_false_2 by congruence.
    rewrite (hold_match_in_range [(EV_KEY, A, 1); (EV_KEY, B, 1)] O _
               (EV_KEY, A, 1) eq_refl).
    rewrite bool_decide_eq_true_2 by reflexivity. cbn [Nat.eqb length].
    rewrite (hold_match_in_range [(EV_KEY, A, 1); (EV_KEY, B, 1)] 1%nat _
               (EV_KEY, B, 1) eq_refl).
    rewrite bool_decide_eq_true_2 by reflexivity. reflexivity.
Qed.

Lemma hold_sequence_matcher_witness :
  hold_match [(EV_KEY, 30, 1); (EV_KEY, 48, 1)] 1 (EV_KEY, 48, 1)
  = inr (O, true).
Proof.
  apply (proj1 (hold_sequence_matcher
                  [(EV_KEY, 30, 1); (EV_KEY, 48, 1)] 1 (EV_KEY, 48, 1) true
                  30 48 46
                  ltac:(discriminate) ltac:(simpl; lia) ltac:(lia))
               eq_refl).
Defined.

Example isa_long_press_once :
  power_button_isa (Some [(EV_KEY, 30, 1); (EV_KEY, 48, 1)]) 10
    (fun n =>
       match n with
       | O => with_ready quiet_tick HoldDev
                {| ev_type := EV_KEY; ev_code := 30; ev_value := 1 |}
                (float_of_int 1)
       | S O => with_ready quiet_tick HoldDev
                  {| ev_type := EV_KEY; ev_code := 46; ev_value := 1 |}
                  (float_of_int 1)
       | S (S O) => with_ready quiet_tick HoldDev
                      {| ev_type := EV_KEY; ev_code := 30; ev_value := 1 |}
                      (float_of_int 1)
       | S (S (S O)) => with_ready quiet_tick HoldDev
                          {| ev_type := EV_KEY; ev_code := 48; ev_value := 1 |}
                          (float_of_int 1)
       | _ => with_exit quiet_tick
       end)
  = ([Register PressDev; Register HoldDev;
      Select STEAM_WAIT_DELAY; Select STEAM_WAIT_DELAY;
      Select STEAM_WAIT_DELAY; Select STEAM_WAIT_DELAY; LongPress],
     Returned).
Proof. vm_compute. reflexivity. Qed.

(** ** Cancellation *)

(** While Steam does not run, the gating wait of the timer variant never
    ends, whatever the cancellation flag says. *)
Lemma wait_steam_timer_never_returns (w : world) :
  (forall n, steam_running (w n) = false) ->
  forall fuel n, (wait_steam_timer fuel w n).2 = None.
Proof.
  intros Hsteam. induction fuel as [| f IH]; intros n; [reflexivity |].
  cbn [wait_steam_timer]. rewrite Hsteam.
  specialize (IH (S n)). destruct (wait_steam_timer f w (S n)) as [tr r].
  exact IH.
Qed.

Lemma timer_stuck_in_gating_wait (w : world) :
  (forall n, steam_running (w n) = false) ->
  exit_set (w O) = false ->
  forall (fuel : nat) (dev : bool) (pressed_time : option spec_float),
    (power_button_timer fuel w dev pressed_time O).2 = OutOfFuel.
Proof.
  intros Hsteam Hexit [| f] dev pressed_time; [reflexivity |].
  cbn [power_button_timer]. rewrite Hexit, Hsteam.
  pose proof (wait_steam_timer_never_returns w Hsteam f O) as Hwait.
  destruct (wait_steam_timer f w O) as [tr r]. simpl in Hwait. subst r.
  reflexivity.
Qed.

(** C9 (the source fails it for the timer variant): when the cancellation
    flag is set while the timer variant waits for Steam, which does not
    start, the loop never returns, however long it runs: its gating wait does
    not look at the flag.  The two-device variant returns after one sleep in
    the same situation. *)
Theorem timer_ignores_cancellation_while_gating (fuel : nat) :
  (power_button_timer fuel gating_world false None O).2 = OutOfFuel
  /\ power_button_isa (Some [(EV_KEY, 30, 1)]) (S (S (S fuel))) gating_world
     = ([Sleep], Returned).
Proof.
  split.
  - apply timer_stuck_in_gating_wait; reflexivity.
  - reflexivity.
Qed.

(** What does hold of cancellation: both loops look at the flag at the top of
    an iteration, and the gating wait of the two-device variant looks at it
    before every sleep. *)
Lemma timer_top_observes_cancellation (w : world) (fuel n : nat) (dev : bool)
    (pressed_time : option spec_float) :
  exit_set (w n) = true ->
  power_button_timer (S fuel) w dev pressed_time n
  = (if dev then [CloseDev PressDev] else [], Returned).
Proof. intros Hexit. cbn [power_button_timer]. rewrite Hexit. reflexivity. Qed.

Lemma isa_top_observes_cancellation (hs : list hold_event) (w : world)
    (fuel n : nat) (devs : bool) (hold_state : nat) :
  exit_set (w n) = true ->
  power_button_isa_loop hs (S fuel) w devs hold_state n = ([], Returned).
Proof. intros Hexit. cbn [power_button_isa_loop]. rewrite Hexit. reflexivity. Qed.

Lemma isa_wait_observes_cancellation (w : world) (fuel n : nat) :
  steam_running (w n) = false ->
  exit_set (w n) = true ->
  wait_steam_isa (S fuel) w n = ([], ExitSeen).
Proof.
  intros Hsteam Hexit. cbn [wait_steam_isa]. rewrite Hsteam, Hexit.
  reflexivity.
Qed.

(** * Further properties of the virtual output device *)

(** ** The loop of [consume] *)

Lemma for_each_app {S O A : Type} (body : A -> M (S := S) (O := O) unit)
    (xs ys : list A) (s : S) :
  for_each body (xs ++ ys) s
  = (for_each body xs ;;; for_each body ys) s.
Proof.
  revert s. induction xs as [| x xs IH]; intros s.
  - cbn [app for_each]. unfold bind, ret.
    destruct (for_each body ys s) as [[s2 o2] r]. reflexivity.
  - cbn [app for_each]. unfold bind.
    destruct (body x s) as [[s1 o1] [e | []]]; [reflexivity |].
    rewrite IH. unfold bind.
    destruct (for_each body xs s1) as [[s2 o2] [e | []]]; [reflexivity |].
    destruct (for_each body ys s2) as [[s3 o3] r].
    rewrite app_assoc. reflexivity.
Qed.

Ltac shape_conj :=
  split; [try rewrite set_ofs_ofs; reflexivity |];
  split; [lia |];
  split; [repeat constructor |];
  split; [repeat constructor; first [discriminate | intros _; lia] |];
  intros ? Hraise; first [discriminate Hraise | auto].

(** What one event can do: at most advance the offset and write. *)
Lemma consume_event_shape (ev : Event) (self : UInputDevice.t) :
  exists (o' : Z) (ops : list dev_op) (r : exn + unit),
    consume_event ev self = (set_ofs self o', ops, r)
    /\ ofs self <= o'
    /\ Forall (fun op => is_write op = true) ops
    /\ Forall timestamp_bounded ops
    /\ (forall e, r = inl e -> ops = [] /\ o' = ofs self).
Proof.
  destruct ev as [code value | code value | code wm sm | ty];
    unfold consume_event, bind, get.
  - destruct (axis_map self !! code) as [ax |].
    + unfold lift. destruct (py_int (axis_float ax value)) as [e | t].
      * exists (ofs self), [], (inl e). shape_conj.
      * exists (ofs self),
          [Write EV_ABS (ax_id ax) (apply_bounds (bounds ax) t)], (inr tt).
        shape_conj.
    + destruct (output_timestamps self
                && bool_decide (code ∈ ["accel_ts"; "gyro_ts"]%string)).
      * cbn [put emit].
        destruct (Z.ltb_spec (ofs self + 2 ^ 30) (value / 1000)) as [Hlt | Hge].
        -- exists (value / 1000),
             [Write EV_MSC MSC_TIMESTAMP (value / 1000 - value / 1000)],
             (inr tt).
           shape_conj.
        -- exists (ofs self),
             [Write EV_MSC MSC_TIMESTAMP (value / 1000 - ofs self)], (inr tt).
           shape_conj.
      * exists (ofs self), [], (inr tt). shape_conj.
  - destruct (btn_map self !! code) as [b |].
    + exists (ofs self), [Write EV_KEY b (if value then 1 else 0)], (inr tt).
      shape_conj.
    + exists (ofs self), [], (inr tt). shape_conj.
  - exists (ofs self), [], (inr tt). shape_conj.
  - exists (ofs self), [], (inr tt). shape_conj.
Qed.

Lemma for_each_consume_shape (events : list Event) :
  forall self : UInputDevice.t,
  exists (o' : Z) (ops : list dev_op) (r : exn + unit),
    for_each consume_event events self = (set_ofs self o', ops, r)
    /\ ofs self <= o'
    /\ Forall (fun op => is_write op = true) ops
    /\ Forall timestamp_bounded ops.
Proof.
  induction events as [| ev rest IH]; intros self.
  - exists (ofs self), [], (inr tt). rewrite set_ofs_ofs.
    split; [reflexivity |]. split; [lia |]. split; constructor.
  - destruct (consume_event_shape ev self)
      as (o1 & ops1 & r1 & Hev & Hle1 & Hw1 & Hb1 & _).
    cbn [for_each]. unfold bind. rewrite Hev.
    destruct r1 as [e | []].
    + exists o1, ops1, (inl e).
      split; [reflexivity |]. split; [lia |]. split; assumption.
    + destruct (IH (set_ofs self o1))
        as (o2 & ops2 & r2 & Hrest & Hle2 & Hw2 & Hb2).
      rewrite Hrest. exists o2, (ops1 ++ ops2), r2.
      cbn [ofs set_ofs] in Hle2.
      split; [destruct self; reflexivity |]. split; [lia |].
      split; apply Forall_app; split; assumption.
Qed.

(** X1: on an open device [consume] makes only writes, followed by exactly
    one synchronisation when it returns, and by none when it raises. *)
Theorem consume_trace_shape
    (self : UInputDevice.t) (h : UInput) (events : list Event) :
  dev self = Some h ->
  exists (self' : UInputDevice.t) (ws : list dev_op) (r : exn + unit),
    consume events self
    = (self', ws ++ (if r is inr _ then [Syn] else []), r)
    /\ Forall (fun op => is_write op = true) ws.
Proof.
  intros Hdev. rewrite (consume_open _ _ _ Hdev).
  destruct (for_each_consume_shape events self)
    as (o' & ops & r & Hrun & _ & Hw & _).
  unfold bind, emit. rewrite Hrun.
  exists (set_ofs self o'), ops, r.
  destruct r as [e | []]; [rewrite app_nil_r |]; split; auto.
Qed.

Lemma consume_trace_shape_witness :
  exists (self' : UInputDevice.t) (ws : list dev_op) (r : exn + unit),
    consume [AxisEvent "ls_y" 9; ButtonEvent "a" true] opened_device
    = (self', ws ++ (if r is inr _ then [Syn] else []), r)
    /\ Forall (fun op => is_write op = true) ws.
Proof. apply (consume_trace_shape opened_device handle7 _ eq_refl). Defined.

(** X2: whatever the events, and whether it returns or raises, [consume]
    changes no attribute of the device but the timestamp offset, and the
    offset never decreases. *)
Theorem consume_only_advances_offset
    (self : UInputDevice.t) (events : list Event) :
  (consume events self).1.1 = set_ofs self (ofs (consume events self).1.1)
  /\ ofs self <= ofs (consume events self).1.1.
Proof.
  unfold consume, bind, get.
  destruct (dev self) as [h |].
  - destruct (for_each_consume_shape events self)
      as (o' & ops & r & Hrun & Hle & _).
    unfold bind, emit. rewrite Hrun.
    destruct r as [e | []]; cbn [fst snd ofs set_ofs]; split;
      try lia; destruct self; reflexivity.
  - cbn [fst snd ret]. rewrite set_ofs_ofs. split; [reflexivity | lia].
Qed.

(** X3: every timestamp that [consume] writes (an [EV_MSC] write) is at
    most [2^30], for every device state and every event sequence. *)
Theorem consume_timestamps_bounded
    (self : UInputDevice.t) (events : list Event) :
  Forall timestamp_bounded (consume events self).1.2.
Proof.
  unfold consume, bind, get.
  destruct (dev self) as [h |]; [| constructor].
  destruct (for_each_consume_shape events self)
    as (o' & ops & r & Hrun & _ & _ & Hb).
  unfold bind, emit. rewrite Hrun.
  destruct r as [e | []]; cbn [fst snd]; [exact Hb |].
  rewrite app_nil_l. apply Forall_app. split; [exact Hb |].
  repeat constructor.
Qed.

(** X4: events with unmapped codes, timestamps on a device that does not
    output timestamps, and events of other kinds are passed over: on an open
    device [consume] of such events only synchronises and changes
    nothing. *)
Theorem consume_ignores_unmapped
    (self : UInputDevice.t) (h : UInput) (events : list Event) :
  dev self = Some h ->
  Forall (ignored self) events ->
  consume events self = (self, [Syn], inr tt).
Proof.
  intros Hdev Hall. rewrite (consume_open _ _ _ Hdev).
  assert (Hloop : for_each consume_event events self = (self, [], inr tt)).
  { induction Hall as [| ev rest Hev _ IH]; [reflexivity |].
    rewrite (for_each_cons_ok _ _ _ _ self []); [rewrite IH; reflexivity |].
    destruct ev as [code value | code value | code wm sm | ty];
      unfold consume_event, bind, get; cbn [ignored] in Hev.
    - destruct Hev as [Hax Hts]. rewrite Hax.
      destruct Hts as [Hoff | Hcode].
      + rewrite Hoff. reflexivity.
      + rewrite (bool_decide_eq_false_2 _ Hcode), andb_false_r. reflexivity.
    - rewrite Hev. reflexivity.
    - reflexivity.
    - reflexivity. }
  unfold bind, emit. rewrite Hloop. reflexivity.
Qed.

Lemma consume_ignores_unmapped_witness :
  consume [AxisEvent "rs_x" 4; ButtonEvent "zz" true;
           RumbleEvent "main" (PyInt 0) (PyInt 0); OtherEvent "led"]
    opened_device
  = (opened_device, [Syn], inr tt).
Proof.
  apply (consume_ignores_unmapped opened_device handle7 _ eq_refl).
  apply Forall_cons. split.
  - split; [reflexivity |]. right. apply (bool_decide_unpack _).
    vm_compute. exact I.
  - repeat constructor.
Defined.

Lemma consume_ok_inv (self s1 : UInputDevice.t) (h : UInput)
    (events : list Event) (t1 : list dev_op) :
  dev self = Some h ->
  consume events self = (s1, t1, inr tt) ->
  exists ws : list dev_op,
    t1 = ws ++ [Syn]
    /\ for_each consume_event events self = (s1, ws, inr tt)
    /\ dev s1 = Some h
    /\ axis_map s1 = axis_map self.
Proof.
  intros Hdev Hrun. rewrite (consume_open _ _ _ Hdev) in Hrun.
  destruct (for_each_consume_shape events self)
    as (o' & ops & r & Hloop & _).
  unfold bind, emit in Hrun. rewrite Hloop in Hrun.
  destruct r as [e | []]; [discriminate Hrun |].
  injection Hrun as <- <-. exists ops. rewrite Hloop.
  repeat split. exact Hdev.
Qed.

(** X5: with bounds [(lo, hi)], the value [consume] writes for a mapped
    axis lies in [[lo, hi]] when [lo <= hi], and is the integer part of the
    scaled value whenever that already lies in the interval; with bounds
    given in the wrong order ([hi < lo]) it is always [hi]. *)
Theorem consume_axis_within_bounds
    (self : UInputDevice.t) (code : string) (value : Z) (ax : AX)
    (lo hi t : Z) :
  axis_map self !! code = Some ax ->
  bounds ax = Some (lo, hi) ->
  py_int (fadd (fmul (scale ax) (float_of_int value)) (offset ax)) = inr t ->
  exists w : Z,
    consume_event (AxisEvent code value) self
    = (self, [Write EV_ABS (ax_id ax) w], inr tt)
    /\ (lo <= hi -> lo <= w <= hi)
    /\ (lo <= t <= hi -> w = t)
    /\ (hi < lo -> w = hi).
Proof.
  intros Hax Hb Ht. exists (Z.min (Z.max t lo) hi).
  rewrite (consume_event_axis _ _ _ _ _ Hax Ht), Hb. cbn [apply_bounds].
  repeat split; lia.
Qed.

Lemma consume_axis_within_bounds_witness :
  exists w : Z,
    consume_event (AxisEvent "ls_y" 9) opened_device
    = (opened_device, [Write EV_ABS 1 w], inr tt)
    /\ (-5 <= 5 -> -5 <= w <= 5)
    /\ (-5 <= 9 <= 5 -> w = 9)
    /\ (5 < -5 -> w = 5).
Proof.
  apply (consume_axis_within_bounds opened_device "ls_y" 9 ax_clamped
           (-5) 5 9 eq_refl eq_refl).
  vm_compute. reflexivity.
Defined.



(** X7: splitting a sequence of events over two calls of [consume] changes
    nothing but one more synchronisation between the two parts: the device
    ends in the same state and receives the same writes in the same order. *)
Theorem consume_app
    (self s1 s2 : UInputDevice.t) (h : UInput) (xs ys : list Event)
    (t1 t2 : list dev_op) (r : exn + unit) :
  dev self = Some h ->
  consume xs self = (s1, t1, inr tt) ->
  consume ys s1 = (s2, t2, r) ->
  exists ws : list dev_op,
    t1 = ws ++ [Syn]
    /\ consume (xs ++ ys) self = (s2, ws ++ t2, r).
Proof.
  intros Hdev Hxs Hys.
  destruct (consume_ok_inv _ _ _ _ _ Hdev Hxs) as (ws & Hws & Hloop & Hdev1 & _).
  exists ws. split; [exact Hws |].
  rewrite (consume_open _ _ _ Hdev1) in Hys.
  rewrite (consume_open _ _ _ Hdev). unfold bind at 1.
  rewrite for_each_app. unfold bind at 1. rewrite Hloop.
  unfold bind in Hys.
  destruct (for_each consume_event ys s1) as [[s3 o3] [e | []]].
  - injection Hys as <- <- <-. reflexivity.
  - cbn [emit] in Hys. injection Hys as <- <- <-.
    cbn [emit]. rewrite app_assoc. reflexivity.
Qed.

Lemma consume_app_witness :
  exists ws : list dev_op,
    [Write EV_ABS 1 5; Syn] = ws ++ [Syn]
    /\ consume ([AxisEvent "ls_y" 9] ++ [ButtonEvent "a" true]) opened_device
       = (opened_device, ws ++ [Write EV_KEY 304 1; Syn], inr tt).
Proof.
  apply (consume_app opened_device opened_device opened_device handle7
           [AxisEvent "ls_y" 9] [ButtonEvent "a" true] _ _ _ eq_refl).
  - vm_compute. reflexivity.
  - vm_compute. reflexivity.
Defined.

(** ** The gate of [produce] *)

(** X8: [produce] reads nothing and returns the empty list when the
    descriptor of the device is [None] (after [close]), is 0, is not among
    the ready descriptors, or when there is no device. *)
Theorem produce_not_ready_noop
    (self : UInputDevice.t) (fds : list Z) (uploads : Z -> ff_effect)
    (batches : list (list InputEvent)) :
  fd self = PyNone
  \/ fd self = Val 0
  \/ (exists n, fd self = Val n /\ n ∉ fds)
  \/ (fd self <> Unset /\ dev self = None) ->
  produce fds uploads batches self = (self, [], inr []).
Proof.
  intros Hgate. unfold produce, bind, get.
  destruct Hgate as [-> | [-> | [(n & -> & Hn) | [Hfd Hdev]]]].
  - reflexivity.
  - reflexivity.
  - rewrite (bool_decide_eq_false_2 _ Hn). cbn [negb].
    rewrite orb_true_r. reflexivity.
  - rewrite Hdev. destruct (fd self) as [| | n]; [congruence | reflexivity |].
    destruct ((n =? 0) || negb (bool_decide (n ∈ fds))); reflexivity.
Qed.

Lemma produce_not_ready_noop_witness :
  produce [3; 4] (fun _ => rumble_effect 0 0) [[ff_event 0 1]] opened_device
  = (opened_device, [], inr []).
Proof.
  apply (produce_not_ready_noop opened_device).
  right. right. left. exists 7. split; [reflexivity |].
  apply (bool_decide_unpack _). vm_compute. exact I.
Defined.

(** X9: on a device that was neither opened nor closed, [produce] raises
    [AttributeError], since [__init__] does not assign [fd]; once [close] was
    called, on any device, [produce] returns the empty list and reads
    nothing, whatever is ready. *)
Theorem produce_before_open_after_close
    (bm : gmap string Z) (am : gmap string AX) (ts exit : bool)
    (self : UInputDevice.t) (fds : list Z) (uploads : Z -> ff_effect)
    (batches : list (list InputEvent)) :
  produce fds uploads batches (init bm am ts)
  = (init bm am ts, [], inl AttributeError)
  /\ (close exit ;;; produce fds uploads batches) self
     = (set_fd (set_input self PyNone) PyNone,
        (if dev self is Some _ then [Close] else []), inr []).
Proof.
  split; [reflexivity |].
  unfold close, produce, bind, get, put, emit, ret.
  destruct (dev self); reflexivity.
Qed.

(** ** The events of [produce] *)

Lemma for_collect_app {S O A B : Type}
    (body : A -> M (S := S) (O := O) (list B)) (xs ys : list A) (s : S) :
  for_collect body (xs ++ ys) s
  = (o1 <- for_collect body xs ;;
     o2 <- for_collect body ys ;;
     ret (o1 ++ o2)) s.
Proof.
  revert s. induction xs as [| x xs IH]; intros s.
  - cbn [app for_collect]. unfold bind, ret.
    destruct (for_collect body ys s) as [[s2 o2] [e | r2]];
      rewrite ?app_nil_r; reflexivity.
  - cbn [app for_collect]. unfold bind, ret in *.
    destruct (body x s) as [[s1 o1] [e | r1]]; [reflexivity |].
    rewrite IH.
    destruct (for_collect body xs s1) as [[s2 o2] [e | r2]]; [reflexivity |].
    destruct (for_collect body ys s2) as [[s3 o3] [e | r3]];
      rewrite ?app_nil_r, ?app_assoc; reflexivity.
Qed.

(** What one inbound event can do: handshakes on the device, and at most a
    new remembered rumble effect. *)
Lemma produce_event_shape (uploads : Z -> ff_effect) (ev : InputEvent)
    (self : UInputDevice.t) :
  exists (rum : option Event) (ops : list dev_op) (r : exn + list Event),
    produce_event uploads ev self = (set_rumble self rum, ops, r)
    /\ Forall (fun op => is_ff_op op = true) ops
    /\ (rumble self <> None -> rum <> None).
Proof.
  unfold produce_event.
  destruct ((ev_type ev =? EV_MSC) && (ev_code ev =? MSC_TIMESTAMP)).
  { exists (rumble self), [], (inr []). destruct self. repeat split; auto. }
  destruct (ev_type ev =? EV_UINPUT).
  { destruct (ev_code ev =? UI_FF_UPLOAD).
    - unfold bind, emit, get, put, ret.
      destruct (effect_type (uploads (ev_value ev)) =? FF_RUMBLE).
      + eexists _, _, _. split; [reflexivity |].
        split; [repeat constructor | discriminate].
      + exists (rumble self), [BeginUpload (ev_value ev); EndUpload (ev_value ev)],
          (inr []).
        destruct self. split; [reflexivity |].
        split; [repeat constructor | auto].
    - destruct (ev_code ev =? UI_FF_ERASE).
      + exists (rumble self), [BeginErase (ev_value ev)], (inl AttributeError).
        destruct self. split; [reflexivity |].
        split; [repeat constructor | auto].
      + exists (rumble self), [], (inr []). destruct self.
        repeat split; auto. }
  destruct ((ev_type ev =? EV_FF) && negb (ev_value ev =? 0)).
  { unfold bind, get.
    destruct (rumble self) as [r |] eqn:Hr.
    - exists (Some r), [], (inr [r]). destruct self. simpl in Hr. subst.
      repeat split; auto.
    - exists None, [], (inr []). destruct self. simpl in Hr. subst.
      repeat split; auto. }
  destruct ((ev_type ev =? EV_FF) && (ev_value ev =? 0)).
  { exists (rumble self), [], (inr [RumbleEvent "main" (PyInt 0) (PyInt 0)]).
    destruct self. repeat split; auto. }
  exists (rumble self), [], (inr []). destruct self. repeat split; auto.
Qed.

Lemma produce_one_batch (self s' : UInputDevice.t) (h : UInput) (n : Z)
    (fds : list Z) (uploads : Z -> ff_effect) (batch : list InputEvent)
    (ops : list dev_op) (r : exn + list Event) :
  fd self = Val n -> n <> 0 -> n ∈ fds -> dev self = Some h ->
  for_collect (produce_event uploads) batch self = (s', ops, r) ->
  produce fds uploads [batch] self = (s', ops, r).
Proof.
  intros Hfd Hn Hin Hdev Hb.
  rewrite (produce_open _ _ _ _ _ _ Hfd Hn Hin Hdev). unfold drain.
  destruct r as [e | out].
  - apply for_collect_cons_raise. exact Hb.
  - rewrite (for_collect_cons_ok _ _ _ _ _ _ _ Hb). cbn [for_collect ret].
    rewrite !app_nil_r. reflexivity.
Qed.

Lemma produce_event_dropped (uploads : Z -> ff_effect) (ev : InputEvent)
    (self : UInputDevice.t) :
  dropped ev -> produce_event uploads ev self = (self, [], inr []).
Proof.
  intros Hd. unfold produce_event.
  destruct ((ev_type ev =? EV_MSC) && (ev_code ev =? MSC_TIMESTAMP));
    [reflexivity |].
  destruct Hd as [[Hu Hf] | (Hu & Hup & Her)].
  - apply Z.eqb_neq in Hu, Hf. rewrite Hu, Hf. reflexivity.
  - apply Z.eqb_eq in Hu. apply Z.eqb_neq in Hup, Her.
    rewrite Hu, Hup, Her. reflexivity.
Qed.

Lemma produce_event_stop (uploads : Z -> ff_effect) (effect_id : Z)
    (self : UInputDevice.t) :
  produce_event uploads (ff_event effect_id 0) self
  = (self, [], inr [RumbleEvent "main" (PyInt 0) (PyInt 0)]).
Proof. reflexivity. Qed.

Lemma produce_event_play_none (uploads : Z -> ff_effect)
    (effect_id value : Z) (self : UInputDevice.t) :
  value <> 0 -> rumble self = None ->
  produce_event uploads (ff_event effect_id value) self = (self, [], inr []).
Proof.
  intros Hv Hr. apply Z.eqb_neq in Hv.
  unfold produce_event, ff_event. cbn [ev_type ev_code ev_value].
  change (EV_FF =? EV_MSC) with false.
  change (EV_FF =? EV_UINPUT) with false.
  change (EV_FF =? EV_FF) with true.
  rewrite Hv. cbn [andb negb]. unfold bind, get. rewrite Hr. reflexivity.
Qed.

Lemma produce_event_upload_other (self : UInputDevice.t)
    (uploads : Z -> ff_effect) (request : Z) :
  effect_type (uploads request) <> FF_RUMBLE ->
  produce_event uploads (upload_event request) self
  = (self, [BeginUpload request; EndUpload request], inr []).
Proof.
  intros Hty. apply Z.eqb_neq in Hty.
  unfold produce_event, upload_event. cbn [ev_type ev_code ev_value].
  change (EV_UINPUT =? EV_MSC) with false.
  change (EV_UINPUT =? EV_UINPUT) with true.
  change (UI_FF_UPLOAD =? UI_FF_UPLOAD) with true.
  cbn [andb]. unfold bind, emit, get, put, ret. rewrite Hty. reflexivity.
Qed.

(** X10: a stop event (an [EV_FF] event with value 0) always makes
    [produce] emit the rumble event with both magnitudes 0, whatever was
    uploaded before; a play event before any rumble upload emits nothing.
    Neither touches the device or its state. *)
Theorem produce_stop_and_play_without_upload
    (self : UInputDevice.t) (h : UInput) (n : Z) (fds : list Z)
    (uploads : Z -> ff_effect) (effect_id value : Z) :
  fd self = Val n -> n <> 0 -> n ∈ fds -> dev self = Some h ->
  produce fds uploads [[ff_event effect_id 0]] self
  = (self, [], inr [RumbleEvent "main" (PyInt 0) (PyInt 0)])
  /\ (rumble self = None -> value <> 0 ->
      produce fds uploads [[ff_event effect_id value]] self
      = (self, [], inr [])).
Proof.
  intros Hfd Hn Hin Hdev. split.
  - apply (produce_one_batch _ _ _ _ _ _ _ _ _ Hfd Hn Hin Hdev).
    rewrite (for_collect_cons_ok _ _ _ _ _ _ _
               (produce_event_stop uploads effect_id self)).
    reflexivity.
  - intros Hr Hv.
    apply (produce_one_batch _ _ _ _ _ _ _ _ _ Hfd Hn Hin Hdev).
    rewrite (for_collect_cons_ok _ _ _ _ _ _ _
               (produce_event_play_none uploads effect_id value self Hv Hr)).
    reflexivity.
Qed.

Lemma produce_stop_and_play_without_upload_witness :
  produce [7] (fun _ => rumble_effect 1 2) [[ff_event 5 0]] opened_device
  = (opened_device, [], inr [RumbleEvent "main" (PyInt 0) (PyInt 0)]).
Proof.
  apply (proj1 (produce_stop_and_play_without_upload opened_device handle7 7
                  [7] (fun _ => rumble_effect 1 2) 5 1
                  eq_refl ltac:(lia) ltac:(constructor) eq_refl)).
Defined.

(** X11: [produce] drops the echoed timestamps and every event it does not
    handle: a queue made of such events only yields the empty list, makes no
    call on the device and changes nothing. *)
Theorem produce_drops_unhandled
    (self : UInputDevice.t) (h : UInput) (n : Z) (fds : list Z)
    (uploads : Z -> ff_effect) (batches : list (list InputEvent)) :
  fd self = Val n -> n <> 0 -> n ∈ fds -> dev self = Some h ->
  Forall (Forall dropped) batches ->
  produce fds uploads batches self = (self, [], inr []).
Proof.
  intros Hfd Hn Hin Hdev Hall.
  rewrite (produce_open _ _ _ _ _ _ Hfd Hn Hin Hdev). unfold drain.
  induction Hall as [| batch rest Hb _ IH]; [reflexivity |].
  assert (Hbatch : for_collect (produce_event uploads) batch self
                   = (self, [], inr [])).
  { induction Hb as [| ev evs Hev _ IHb]; [reflexivity |].
    rewrite (for_collect_cons_ok _ _ _ _ _ _ _
               (produce_event_dropped uploads ev self Hev)).
    rewrite IHb. reflexivity. }
  rewrite (for_collect_cons_ok _ _ _ _ _ _ _ Hbatch). rewrite IH.
  reflexivity.
Qed.

Lemma produce_drops_unhandled_witness :
  produce [7] (fun _ => rumble_effect 1 2)
    [[{| ev_type := EV_MSC; ev_code := MSC_TIMESTAMP; ev_value := 12 |}];
     [{| ev_type := EV_KEY; ev_code := 304; ev_value := 1 |};
      {| ev_type := EV_UINPUT; ev_code := 9; ev_value := 0 |}]]
    opened_device
  = (opened_device, [], inr []).
Proof.
  apply (produce_drops_unhandled opened_device handle7 7 [7] _ _
           eq_refl ltac:(lia) ltac:(constructor) eq_refl).
  assert (Hts : dropped {| ev_type := EV_MSC; ev_code := MSC_TIMESTAMP;
                           ev_value := 12 |})
    by (left; split; discriminate).
  assert (Hkey : dropped {| ev_type := EV_KEY; ev_code := 304;
                            ev_value := 1 |})
    by (left; split; discriminate).
  assert (Huin : dropped {| ev_type := EV_UINPUT; ev_code := 9;
                            ev_value := 0 |})
    by (right; repeat split; discriminate).
  constructor;
    [constructor; [exact Hts | constructor]
    | constructor;
        [constructor; [exact Hkey | constructor; [exact Huin | constructor]]
        | constructor]].
Defined.

(** X12: the upload of an effect that is not a rumble effect is begun and
    ended on the device like any other, but leaves the remembered rumble
    effect as it was: a play event that follows emits the effect uploaded
    earlier. *)
Theorem produce_upload_other_keeps_rumble
    (self : UInputDevice.t) (h : UInput) (n : Z) (fds : list Z)
    (uploads : Z -> ff_effect) (request effect_id value : Z) (r : Event) :
  fd self = Val n -> n <> 0 -> n ∈ fds -> dev self = Some h ->
  effect_type (uploads request) <> FF_RUMBLE ->
  rumble self = Some r ->
  value <> 0 ->
  produce fds uploads [[upload_event request; ff_event effect_id value]] self
  = (self, [BeginUpload request; EndUpload request], inr [r]).
Proof.
  intros Hfd Hn Hin Hdev Hty Hr Hv.
  apply (produce_one_batch _ _ _ _ _ _ _ _ _ Hfd Hn Hin Hdev).
  rewrite (for_collect_cons_ok _ _ _ _ _ _ _
             (produce_event_upload_other self uploads request Hty)).
  rewrite (for_collect_cons_ok _ _ _ _ _ _ _
             (produce_event_play self uploads effect_id value r Hv Hr)).
  reflexivity.
Qed.

Lemma produce_upload_other_keeps_rumble_witness :
  produce [7] (fun _ => {| effect_type := 81; rumble_weak := 9; rumble_strong := 9 |})
    [[upload_event 2; ff_event 0 1]]
    (set_rumble opened_device (Some (spec_rumble 32768 65535)))
  = (set_rumble opened_device (Some (spec_rumble 32768 65535)),
     [BeginUpload 2; EndUpload 2], inr [spec_rumble 32768 65535]).
Proof.
  apply (produce_upload_other_keeps_rumble
           (set_rumble opened_device (Some (spec_rumble 32768 65535)))
           handle7 7 [7]
           (fun _ => {| effect_type := 81; rumble_weak := 9; rumble_strong := 9 |})
           2 0 1 (spec_rumble 32768 65535)
           eq_refl ltac:(lia) ltac:(constructor) eq_refl
           ltac:(discriminate) eq_refl ltac:(lia)).
Defined.

(** X13: the remembered rumble effect is the one uploaded last: after two
    rumble uploads a play event emits the magnitudes of the second. *)
Theorem produce_last_upload_wins
    (self : UInputDevice.t) (h : UInput) (n : Z) (fds : list Z)
    (uploads : Z -> ff_effect)
    (req1 req2 weak1 strong1 weak2 strong2 effect_id value : Z) :
  fd self = Val n -> n <> 0 -> n ∈ fds -> dev self = Some h ->
  uploads req1 = rumble_effect weak1 strong1 ->
  uploads req2 = rumble_effect weak2 strong2 ->
  value <> 0 ->
  produce fds uploads
    [[upload_event req1]; [upload_event req2; ff_event effect_id value]] self
  = (set_rumble self (Some (spec_rumble weak2 strong2)),
     [BeginUpload req1; EndUpload req1; BeginUpload req2; EndUpload req2],
     inr [spec_rumble weak2 strong2]).
Proof.
  intros Hfd Hn Hin Hdev Hup1 Hup2 Hv.
  rewrite (produce_open _ _ _ _ _ _ Hfd Hn Hin Hdev). unfold drain.
  assert (Hb1 : for_collect (produce_event uploads) [upload_event req1] self
                = (set_rumble self (Some (spec_rumble weak1 strong1)),
                   [BeginUpload req1; EndUpload req1], inr [])).
  { rewrite (for_collect_cons_ok _ _ _ _ _ _ _
               (produce_event_upload_rumble self uploads req1 _ _ Hup1)).
    reflexivity. }
  assert (Hb2 : for_collect (produce_event uploads)
                  [upload_event req2; ff_event effect_id value]
                  (set_rumble self (Some (spec_rumble weak1 strong1)))
                = (set_rumble self (Some (spec_rumble weak2 strong2)),
                   [BeginUpload req2; EndUpload req2],
                   inr [spec_rumble weak2 strong2])).
  { rewrite (for_collect_cons_ok _ _ _ _ _ _ _
               (produce_event_upload_rumble _ uploads req2 _ _ Hup2)).
    rewrite (for_collect_cons_ok _ _ _ _ _ _ _
               (produce_event_play
                  (set_rumble self (Some (spec_rumble weak2 strong2)))
                  uploads effect_id value
                  (spec_rumble weak2 strong2) Hv eq_refl)).
    reflexivity. }
  rewrite (for_collect_cons_ok _ _ _ _ _ _ _ Hb1).
  rewrite (for_collect_cons_ok _ _ _ _ _ _ _ Hb2).
  reflexivity.
Qed.

Lemma produce_last_upload_wins_witness :
  produce [7] (fun r => if r =? 1 then rumble_effect 10 20 else rumble_effect 30 40)
    [[upload_event 1]; [upload_event 2; ff_event 0 1]] opened_device
  = (set_rumble opened_device (Some (spec_rumble 30 40)),
     [BeginUpload 1; EndUpload 1; BeginUpload 2; EndUpload 2],
     inr [spec_rumble 30 40]).
Proof.
  apply (produce_last_upload_wins opened_device handle7 7 [7]
           (fun r => if r =? 1 then rumble_effect 10 20 else rumble_effect 30 40)
           1 2 10 20 30 40 0 1
           eq_refl ltac:(lia) ltac:(constructor) eq_refl eq_refl eq_refl
           ltac:(lia)).
Defined.

(** X14: how the queue is cut into reads does not matter: [produce] on the
    successive reads gives what it gives on one read that holds all the
    events, in state, device calls and result, also when it raises. *)
Theorem produce_batches_flatten
    (self : UInputDevice.t) (fds : list Z) (uploads : Z -> ff_effect)
    (batches : list (list InputEvent)) :
  produce fds uploads batches self
  = produce fds uploads [concat batches] self.
Proof.
  assert (Hflat : forall s,
    for_collect (for_collect (produce_event uploads)) batches s
    = for_collect (produce_event uploads) (concat batches) s).
  { induction batches as [| b rest IH]; intros s; [reflexivity |].
    cbn [concat]. rewrite for_collect_app. cbn [for_collect].
    unfold bind, ret.
    destruct (for_collect (produce_event uploads) b s) as [[s1 o1] [e | r1]];
      [reflexivity |].
    rewrite IH. reflexivity. }
  unfold produce, bind, get.
  destruct (fd self) as [| | n]; try reflexivity.
  destruct ((n =? 0) || negb (bool_decide (n ∈ fds))); [reflexivity |].
  destruct (dev self); [| reflexivity].
  unfold drain. rewrite Hflat. cbn [for_collect]. unfold bind, ret.
  destruct (for_collect (produce_event uploads) (concat batches) self)
    as [[s1 o1] [e | r1]]; rewrite ?app_nil_r; reflexivity.
Qed.

(** X15: whatever is in the queue, [produce] makes only force-feedback
    handshakes on the device (it never writes, synchronises or closes),
    changes no attribute but the remembered rumble effect, and never forgets
    a rumble effect once one is remembered. *)
Theorem produce_invariants
    (self : UInputDevice.t) (fds : list Z) (uploads : Z -> ff_effect)
    (batches : list (list InputEvent)) :
  exists (rum : option Event) (ops : list dev_op) (r : exn + list Event),
    produce fds uploads batches self = (set_rumble self rum, ops, r)
    /\ Forall (fun op => is_ff_op op = true) ops
    /\ (rumble self <> None -> rum <> None).
Proof.
  assert (Hbatch : forall (b : list InputEvent) (s : UInputDevice.t),
    exists rum ops r,
      for_collect (produce_event uploads) b s = (set_rumble s rum, ops, r)
      /\ Forall (fun op => is_ff_op op = true) ops
      /\ (rumble s <> None -> rum <> None)).
  { induction b as [| ev evs IH]; intros s.
    - exists (rumble s), [], (inr []). destruct s. repeat split; auto.
    - destruct (produce_event_shape uploads ev s)
        as (rum1 & ops1 & r1 & Hev & Hf1 & Hk1).
      cbn [for_collect]. unfold bind at 1. rewrite Hev.
      destruct r1 as [e | out1].
      + exists rum1, ops1, (inl e). auto.
      + destruct (IH (set_rumble s rum1)) as (rum2 & ops2 & r2 & Hrest & Hf2 & Hk2).
        unfold bind, ret. rewrite Hrest.
        exists rum2, (ops1 ++ ops2 ++ (if r2 is inr _ then [] else [])),
          (match r2 with inl e => inl e | inr o2 => inr (out1 ++ o2) end).
        split; [destruct s, r2; rewrite ?app_nil_r; reflexivity |].
        split.
        * destruct r2; rewrite app_nil_r; apply Forall_app; auto.
        * intros Hs. apply Hk2. cbn [rumble set_rumble]. auto. }
  assert (Hall : forall (bs : list (list InputEvent)) (s : UInputDevice.t),
    exists rum ops r,
      for_collect (for_collect (produce_event uploads)) bs s
      = (set_rumble s rum, ops, r)
      /\ Forall (fun op => is_ff_op op = true) ops
      /\ (rumble s <> None -> rum <> None)).
  { induction bs as [| b bs IH]; intros s.
    - exists (rumble s), [], (inr []). destruct s. repeat split; auto.
    - destruct (Hbatch b s) as (rum1 & ops1 & r1 & Hb & Hf1 & Hk1).
      cbn [for_collect]. unfold bind at 1. rewrite Hb.
      destruct r1 as [e | out1].
      + exists rum1, ops1, (inl e). auto.
      + destruct (IH (set_rumble s rum1)) as (rum2 & ops2 & r2 & Hrest & Hf2 & Hk2).
        unfold bind, ret. rewrite Hrest.
        exists rum2, (ops1 ++ ops2 ++ (if r2 is inr _ then [] else [])),
          (match r2 with inl e => inl e | inr o2 => inr (out1 ++ o2) end).
        split; [destruct s, r2; rewrite ?app_nil_r; reflexivity |].
        split.
        * destruct r2; rewrite app_nil_r; apply Forall_app; auto.
        * intros Hs. apply Hk2. cbn [rumble set_rumble]. auto. }
  unfold produce, bind, get.
  assert (Hid : forall r : exn + list Event,
    exists rum ops r', (self, [], r) = (set_rumble self rum, ops, r')
      /\ Forall (fun op => is_ff_op op = true) ops
      /\ (rumble self <> None -> rum <> None)).
  { intros r. exists (rumble self), [], r. destruct self. repeat split; auto. }
  destruct (fd self) as [| | n]; try apply Hid.
  destruct ((n =? 0) || negb (bool_decide (n ∈ fds))); [apply Hid |].
  destruct (dev self); [| apply Hid].
  unfold drain. destruct (Hall batches self) as (rum & ops & r & Hrun & Hf & Hk).
  rewrite Hrun. exists rum, ops, r. auto.
Qed.

(** * Further properties of the power-button watchdog *)

(** ** The hold sequence *)

(** One step of the matcher, for any cursor: it returns, the new cursor is
    inside the sequence, and a step that fires has used up the whole
    sequence. *)
Lemma hold_match_step (hs : list hold_event) (c : nat) (chk : hold_event) :
  hs <> [] ->
  exists (c' : nat) (fired : bool),
    hold_match hs c chk = inr (c', fired)
    /\ (c' < length hs)%nat
    /\ (c' + (if fired then length hs else O) <= S c)%nat.
Proof.
  intros Hne.
  assert (Hlen : (0 < length hs)%nat) by (destruct hs; [congruence | simpl; lia]).
  unfold hold_match.
  set (c0 := if (length hs <=? c)%nat then O else c).
  assert (Hc0 : (c0 < length hs /\ c0 <= c)%nat).
  { unfold c0. destruct (Nat.leb_spec (length hs) c); lia. }
  destruct (lookup_lt_is_Some_2 hs c0 (proj1 Hc0)) as [expected ->].
  destruct (bool_decide (chk = expected)).
  - destruct (Nat.eqb_spec (S c0) (length hs)) as [Hend | Hmid].
    + exists O, true. repeat split; lia.
    + exists (S c0), false. repeat split; lia.
  - destruct (Nat.eqb_spec O (length hs)) as [H0 | _]; [lia |].
    exists O, false. repeat split; lia.
Qed.

(** X16: for a non-empty hold sequence the matcher never raises, whatever
    the cursor it is given (a cursor beyond the sequence is first reset to
    0), and the cursor it returns is inside the sequence. *)
Theorem hold_match_never_raises
    (hs : list hold_event) (c : nat) (chk : hold_event) :
  hs <> [] ->
  exists (c' : nat) (fired : bool),
    hold_match hs c chk = inr (c', fired) /\ (c' < length hs)%nat.
Proof.
  intros Hne.
  destruct (hold_match_step hs c chk Hne) as (c' & fired & Hm & Hlt & _).
  exists c', fired. auto.
Qed.

Lemma hold_match_never_raises_witness :
  exists (c' : nat) (fired : bool),
    hold_match [(EV_KEY, 30, 1); (EV_KEY, 48, 1)] 7 (EV_KEY, 30, 1)
    = inr (c', fired)
    /\ (c' < length [(EV_KEY, 30, 1); (EV_KEY, 48, 1)])%nat.
Proof.
  apply (hold_match_never_raises [(EV_KEY, 30, 1); (EV_KEY, 48, 1)] 7
           (EV_KEY, 30, 1)).
  discriminate.
Defined.

(** X17: feeding a non-empty hold sequence, in order, to the matcher that
    waits for it executes the long press exactly once and leaves the cursor
    at 0. *)
Theorem hold_run_whole_sequence (hs : list hold_event) :
  hs <> [] ->
  hold_run hs O hs = inr (O, 1%nat).
Proof.
  intros Hne.
  assert (Hgen : forall k c : nat,
            (c < length hs)%nat -> (length hs - c = S k)%nat ->
            hold_run hs c (drop c hs) = inr (O, 1%nat)).
  { induction k as [| k IH]; intros c Hlt Hk;
      destruct (lookup_lt_is_Some_2 hs c Hlt) as [x Hx];
      rewrite (drop_S _ _ _ Hx); cbn [hold_run];
      rewrite (hold_match_in_range hs c x x Hx),
        bool_decide_eq_true_2 by reflexivity.
    - destruct (Nat.eqb_spec (S c) (length hs)) as [_ | Hmid]; [| lia].
      rewrite drop_ge by lia. reflexivity.
    - destruct (Nat.eqb_spec (S c) (length hs)) as [Hend | _]; [lia |].
      rewrite (IH (S c)) by lia. reflexivity. }
  assert (Hlen : (0 < length hs)%nat) by (destruct hs; [congruence | simpl; lia]).
  apply (Hgen (length hs - 1)%nat O); lia.
Qed.

Lemma hold_run_whole_sequence_witness :
  hold_run [(EV_KEY, 30, 1); (EV_KEY, 48, 1); (EV_KEY, 30, 0)] O
    [(EV_KEY, 30, 1); (EV_KEY, 48, 1); (EV_KEY, 30, 0)]
  = inr (O, 1%nat).
Proof.
  apply (hold_run_whole_sequence
           [(EV_KEY, 30, 1); (EV_KEY, 48, 1); (EV_KEY, 30, 0)]).
  discriminate.
Defined.

(** X18: the matcher cannot fire more often than the events allow: after
    any events, the final cursor plus the length of the sequence for each
    long press executed is at most the initial cursor plus the number of
    events; from cursor 0, [k] long presses need at least [k] times the
    length of the sequence in events. *)
Theorem hold_run_fire_bound
    (hs : list hold_event) (evs : list hold_event) (c c' k : nat) :
  hs <> [] ->
  hold_run hs c evs = inr (c', k) ->
  (c' + k * length hs <= c + length evs)%nat.
Proof.
  intros Hne. revert c c' k.
  induction evs as [| chk rest IH]; intros c c' k Hrun.
  - cbn [hold_run] in Hrun. injection Hrun as <- <-. simpl. lia.
  - cbn [hold_run] in Hrun.
    destruct (hold_match_step hs c chk Hne) as (c1 & fired & Hm & _ & Hstep).
    rewrite Hm in Hrun.
    destruct (hold_run hs c1 rest) as [e | [final k']] eqn:Hrest;
      [discriminate Hrun |].
    injection Hrun as <- <-.
    specialize (IH c1 final k' Hrest). cbn [length].
    destruct fired; lia.
Qed.

Lemma hold_run_fire_bound_witness :
  (O + 1 * length [(EV_KEY, 30, 1); (EV_KEY, 48, 1)]
   <= O + length [(EV_KEY, 30, 1); (EV_KEY, 46, 1); (EV_KEY, 30, 1);
                  (EV_KEY, 48, 1)])%nat.
Proof.
  apply (hold_run_fire_bound [(EV_KEY, 30, 1); (EV_KEY, 48, 1)]
           [(EV_KEY, 30, 1); (EV_KEY, 46, 1); (EV_KEY, 30, 1); (EV_KEY, 48, 1)]
           O O 1%nat).
  - discriminate.
  - vm_compute. reflexivity.
Defined.

(** ** The gating wait *)

Lemma wait_steam_timer_sleeps (w : world) (k fuel n : nat) :
  (forall i, (i < k)%nat -> steam_running (w (n + i)%nat) = false) ->
  steam_running (w (n + k)%nat) = true ->
  (k < fuel)%nat ->
  wait_steam_timer fuel w n = (replicate k Sleep, Some (n + k)%nat).
Proof.
  revert fuel n. induction k as [| k IH]; intros fuel n Hdown Hup Hfuel;
    destruct fuel as [| f]; try lia; cbn [wait_steam_timer].
  - rewrite Nat.add_0_r in Hup. rewrite Hup, Nat.add_0_r. reflexivity.
  - assert (H0 : steam_running (w n) = false).
    { rewrite <- (Nat.add_0_r n). apply Hdown. apply Nat.lt_0_succ. }
    rewrite H0.
    rewrite (IH f (S n)); try lia.
    + cbn [replicate]. replace (S n + k)%nat with (n + S k)%nat by lia.
      reflexivity.
    + intros i Hi. replace (S n + i)%nat with (n + S i)%nat by lia.
      apply Hdown. lia.
    + replace (S n + k)%nat with (n + S k)%nat by lia. exact Hup.
Qed.

(** X19: the gating wait of the timer variant only sleeps, once for every
    instant at which Steam does not run, and ends at the first instant at
    which it runs, given fuel for that many sleeps. *)
Theorem wait_steam_timer_returns (w : world) (k fuel n : nat) :
  (forall i, (i < k)%nat -> steam_running (w (n + i)%nat) = false) ->
  steam_running (w (n + k)%nat) = true ->
  (k < fuel)%nat ->
  wait_steam_timer fuel w n = (replicate k Sleep, Some (n + k)%nat).
Proof. apply wait_steam_timer_sleeps. Qed.

Lemma wait_steam_timer_returns_witness :
  wait_steam_timer 5
    (fun m => if (m <? 2)%nat then gating_world m else quiet_tick) O
  = (replicate 2 Sleep, Some (0 + 2)%nat).
Proof.
  apply (wait_steam_timer_returns
           (fun m => if (m <? 2)%nat then gating_world m else quiet_tick)
           2 5 O).
  - intros i Hi. destruct i as [| [| i]]; [reflexivity | reflexivity | lia].
  - reflexivity.
  - lia.
Defined.

(** ** Cancellation is observed *)

Lemma wait_steam_isa_ends (w : world) (k : nat) :
  (forall m, (k <= m)%nat -> exit_set (w m) = true) ->
  forall fuel n : nat,
    (0 < fuel)%nat -> (k + 1 <= n + fuel)%nat ->
    (wait_steam_isa fuel w n).2 = ExitSeen
    \/ exists n1, (wait_steam_isa fuel w n).2 = SteamUp n1 /\ (n <= n1)%nat.
Proof.
  intros Hexit. induction fuel as [| f IH]; intros n Hpos Hfuel; [lia |].
  cbn [wait_steam_isa].
  destruct (steam_running (w n)); [right; exists n; split; [reflexivity | lia] |].
  destruct (exit_set (w n)) eqn:He; [left; reflexivity |].
  assert (Hn : (n < k)%nat).
  { destruct (Nat.lt_ge_cases n k) as [H | H]; [exact H |].
    rewrite (Hexit n H) in He. discriminate He. }
  destruct (IH (S n)) as [Hseen | (n1 & Hup & Hle)]; try lia;
    destruct (wait_steam_isa f w (S n)) as [tr r]; cbn [snd] in *.
  - left. exact Hseen.
  - right. exists n1. split; [exact Hup | lia].
Qed.

Lemma isa_loop_returns_when_cancelled
    (hs : list hold_event) (w : world) (k fuel n : nat) (devs : bool)
    (hold_state : nat) :
  (forall m, (k <= m)%nat -> exit_set (w m) = true) ->
  (0 < fuel)%nat ->
  (k + 2 <= n + fuel)%nat ->
  (power_button_isa_loop hs fuel w devs hold_state n).2 = Returned.
Proof.
  intros Hexit. revert n devs hold_state.
  assert (Hgen : forall (fuel n : nat) (devs : bool) (hold_state : nat),
            (0 < fuel)%nat -> ((k <= n)%nat \/ (k + 2 <= n + fuel)%nat) ->
            (power_button_isa_loop hs fuel w devs hold_state n).2 = Returned).
  { clear fuel. induction fuel as [| f IH]; intros n devs hold_state Hpos Hfuel;
      [lia |].
    cbn [power_button_isa_loop].
    destruct (exit_set (w n)) eqn:He; [reflexivity |].
    assert (Hn : (n < k)%nat).
    { destruct (Nat.lt_ge_cases n k) as [H | H]; [exact H |].
      rewrite (Hexit n H) in He. discriminate He. }
    assert (Hrec : forall n1 devs' c', (n <= n1)%nat ->
              (power_button_isa_loop hs f w devs' c' (S n1)).2 = Returned).
    { intros n1 devs' c' Hle. apply IH; lia. }
    assert (Hcont : forall (tr1 : list action) (devs1 : bool) (n1 : nat),
              (n <= n1)%nat ->
              (let '(tr2, devs2) :=
                 if devs1 then ([], true)
                 else
                   ((if press_found (w n1) then [Register PressDev] else [])
                      ++ (if hold_found (w n1) then [Register HoldDev] else []),
                    press_found (w n1) && hold_found (w n1)) in
               if negb devs2 then (tr1 ++ tr2, Returned)
               else
                 match ready (w n1) with
                 | None =>
                     let '(tr4, st) :=
                       power_button_isa_loop hs f w true hold_state (S n1) in
                     (tr1 ++ tr2 ++ Select STEAM_WAIT_DELAY :: tr4, st)
                 | Some (d, ev) =>
                     match isa_handle hs hold_state d ev (action_ok (w n1)) with
                     | inl _ =>
                         (tr1 ++ tr2 ++ [Select STEAM_WAIT_DELAY], Returned)
                     | inr (hold_state', tr3) =>
                         let '(tr4, st) :=
                           power_button_isa_loop hs f w true hold_state'
                             (S n1) in
                         (tr1 ++ tr2 ++ Select STEAM_WAIT_DELAY :: tr3 ++ tr4,
                          st)
                     end
                 end).2 = Returned).
    { intros tr1 devs1 n1 Hle.
      destruct (if devs1 then _ else _) as [tr2 devs2].
      destruct devs2; [| reflexivity]. cbn [negb].
      destruct (ready (w n1)) as [[d ev] |].
      - destruct (isa_handle hs hold_state d ev (action_ok (w n1)))
          as [e | [c' tr3]]; [reflexivity |].
        pose proof (Hrec n1 true c' Hle) as Hr.
        destruct (power_button_isa_loop hs f w true c' (S n1)). exact Hr.
      - pose proof (Hrec n1 true hold_state Hle) as Hr.
        destruct (power_button_isa_loop hs f w true hold_state (S n1)).
        exact Hr. }
    destruct (steam_running (w n)).
    - apply (Hcont [] devs n). lia.
    - destruct (wait_steam_isa_ends w k Hexit f n) as [Hseen | (n1 & Hup & Hle)];
        try lia;
        destruct (wait_steam_isa f w n) as [tr r]; cbn [snd] in *; subst r.
      + reflexivity.
      + apply (Hcont _ false n1). exact Hle. }
  intros n devs hold_state Hpos Hfuel. apply Hgen; [exact Hpos | right; exact Hfuel].
Qed.

(** X20: the two-device variant always observes the cancellation flag: once
    the flag stays set from instant [k] on, the loop returns, whatever Steam
    and the devices do, as soon as it is given fuel to reach that instant. *)
Theorem isa_cancellation_observed
    (hs : list hold_event) (w : world) (k fuel n : nat) (devs : bool)
    (hold_state : nat) :
  (forall m, (k <= m)%nat -> exit_set (w m) = true) ->
  (0 < fuel)%nat ->
  (k + 2 <= n + fuel)%nat ->
  (power_button_isa_loop hs fuel w devs hold_state n).2 = Returned.
Proof. apply isa_loop_returns_when_cancelled. Qed.

Lemma isa_cancellation_observed_witness :
  (power_button_isa_loop [(EV_KEY, 30, 1)] 3 gating_world false O O).2
  = Returned.
Proof.
  apply (isa_cancellation_observed [(EV_KEY, 30, 1)] gating_world 1 3 O false O).
  - intros m Hm. destruct m as [| m]; [lia | reflexivity].
  - lia.
  - lia.
Defined.

Lemma wait_steam_timer_ends (w : world) (k : nat) :
  (forall m, (k <= m)%nat -> steam_running (w m) = true) ->
  forall fuel n : nat,
    (0 < fuel)%nat -> (k + 1 <= n + fuel)%nat ->
    exists n1, (wait_steam_timer fuel w n).2 = Some n1 /\ (n <= n1)%nat.
Proof.
  intros Hsteam. induction fuel as [| f IH]; intros n Hpos Hfuel; [lia |].
  cbn [wait_steam_timer].
  destruct (steam_running (w n)) eqn:Hs; [exists n; split; [reflexivity | lia] |].
  assert (Hn : (n < k)%nat).
  { destruct (Nat.lt_ge_cases n k) as [H | H]; [exact H |].
    rewrite (Hsteam n H) in Hs. discriminate Hs. }
  destruct (IH (S n)) as (n1 & Hup & Hle); try lia.
  destruct (wait_steam_timer f w (S n)) as [tr r]. cbn [snd] in *.
  exists n1. split; [exact Hup | lia].
Qed.

Lemma timer_loop_returns_when_cancelled
    (w : world) (k fuel n : nat) (dev : bool)
    (pressed_time : option spec_float) :
  (forall m, (k <= m)%nat -> exit_set (w m) = true) ->
  (forall m, (k <= m)%nat -> steam_running (w m) = true) ->
  (0 < fuel)%nat ->
  (k + 2 <= n + fuel)%nat ->
  (power_button_timer fuel w dev pressed_time n).2 = Returned.
Proof.
  intros Hexit Hsteam. revert n dev pressed_time.
  assert (Hgen : forall (fuel n : nat) (dev : bool)
                   (pressed_time : option spec_float),
            (0 < fuel)%nat -> ((k <= n)%nat \/ (k + 2 <= n + fuel)%nat) ->
            (power_button_timer fuel w dev pressed_time n).2 = Returned).
  { clear fuel. induction fuel as [| f IH]; intros n dev p Hpos Hfuel; [lia |].
    cbn [power_button_timer].
    destruct (exit_set (w n)) eqn:He; [reflexivity |].
    assert (Hn : (n < k)%nat).
    { destruct (Nat.lt_ge_cases n k) as [H | H]; [exact H |].
      rewrite (Hexit n H) in He. discriminate He. }
    assert (Hcont : forall (tr1 : list action) (dev1 : bool) (n1 : nat),
              (n <= n1)%nat ->
              (let '(tr2, dev2) :=
                 if dev1 then ([], true)
                 else if press_found (w n1) then ([Register PressDev], true)
                 else ([], false) in
               if negb dev2 then (tr1 ++ tr2, Returned)
               else
                 let delay :=
                   if truthy_time p then LONG_PRESS_DELAY
                   else STEAM_WAIT_DELAY in
                 let '(pressed_time', pt) :=
                   classify p (timer_ready (w n1)) (perf_counter (w n1)) in
                 let tr3 := Select delay :: dispatch pt (action_ok (w n1)) in
                 let '(tr4, st) :=
                   power_button_timer f w true pressed_time' (S n1) in
                 (tr1 ++ tr2 ++ tr3 ++ tr4, st)).2 = Returned).
    { intros tr1 dev1 n1 Hle.
      destruct (if dev1 then _ else _) as [tr2 dev2].
      destruct dev2; [| reflexivity]. cbn [negb]. cbv zeta.
      destruct (classify p (timer_ready (w n1)) (perf_counter (w n1)))
        as [p' pt].
      pose proof (IH (S n1) true p' ltac:(lia) ltac:(lia)) as Hr.
      destruct (power_button_timer f w true p' (S n1)). exact Hr. }
    destruct (steam_running (w n)).
    - apply (Hcont [] dev n). lia.
    - destruct (wait_steam_timer_ends w k Hsteam f n) as (n1 & Hup & Hle);
        try lia.
      destruct (wait_steam_timer f w n) as [tr r]. cbn [snd] in *. subst r.
      apply (Hcont _ false n1). exact Hle. }
  intros n dev p Hpos Hfuel. apply Hgen; [exact Hpos | right; exact Hfuel].
Qed.

(** X21: the timer variant observes the cancellation flag provided Steam
    runs from the moment the flag is set: if from instant [k] on the flag
    stays set and Steam runs, the loop returns as soon as it is given fuel
    to reach that instant. *)
Theorem timer_cancellation_observed
    (w : world) (k fuel n : nat) (dev : bool)
    (pressed_time : option spec_float) :
  (forall m, (k <= m)%nat -> exit_set (w m) = true) ->
  (forall m, (k <= m)%nat -> steam_running (w m) = true) ->
  (0 < fuel)%nat ->
  (k + 2 <= n + fuel)%nat ->
  (power_button_timer fuel w dev pressed_time n).2 = Returned.
Proof. apply timer_loop_returns_when_cancelled. Qed.

Lemma timer_cancellation_observed_witness :
  (power_button_timer 5 held_world false None O).2 = Returned.
Proof.
  apply (timer_cancellation_observed held_world 3 5 O false None).
  - intros m Hm. destruct m as [| [| [| m]]]; try lia. reflexivity.
  - intros m Hm. destruct m as [| [| [| m]]]; try lia. reflexivity.
  - lia.
  - lia.
Defined.

(** ** What the loops never do *)

Lemma suspend_guarded_weaken (b : bool) (tr : list action) :
  suspend_guarded false tr = true -> suspend_guarded b tr = true.
Proof. destruct tr as [| [] rest]; simpl; auto; discriminate. Qed.

Lemma suspend_guarded_app (b : bool) (tr1 tr2 : list action) :
  suspend_guarded b tr1 = true ->
  suspend_guarded false tr2 = true ->
  suspend_guarded b (tr1 ++ tr2) = true.
Proof.
  revert b. induction tr1 as [| a tr1 IH]; intros b H1 H2.
  - apply suspend_guarded_weaken. exact H2.
  - destruct a; cbn [app suspend_guarded] in *; auto.
    apply andb_true_iff in H1 as [-> H1]. cbn [andb]. auto.
Qed.

Lemma dispatch_guarded (pt : press_type) (ok : bool) :
  suspend_guarded false (dispatch pt ok) = true.
Proof. destruct pt, ok; reflexivity. Qed.

Lemma wait_steam_timer_guarded (fuel : nat) (w : world) (n : nat) :
  suspend_guarded false (wait_steam_timer fuel w n).1 = true.
Proof.
  revert n. induction fuel as [| f IH]; intros n; [reflexivity |].
  cbn [wait_steam_timer]. destruct (steam_running (w n)); [reflexivity |].
  specialize (IH (S n)). destruct (wait_steam_timer f w (S n)). exact IH.
Qed.

Lemma wait_steam_isa_guarded (fuel : nat) (w : world) (n : nat) :
  suspend_guarded false (wait_steam_isa fuel w n).1 = true.
Proof.
  revert n. induction fuel as [| f IH]; intros n; [reflexivity |].
  cbn [wait_steam_isa]. destruct (steam_running (w n)); [reflexivity |].
  destruct (exit_set (w n)); [reflexivity |].
  specialize (IH (S n)). destruct (wait_steam_isa f w (S n)). exact IH.
Qed.

Lemma isa_handle_guarded (hs : list hold_event) (c c' : nat) (d : dev_id)
    (ev : InputEvent) (ok : bool) (tr : list action) :
  isa_handle hs c d ev ok = inr (c', tr) ->
  suspend_guarded false tr = true.
Proof.
  unfold isa_handle. destruct d.
  - destruct ((ev_type ev =? EV_KEY) && (ev_code ev =? KEY_POWER)
              && negb (ev_value ev =? 0));
      intros [= _ <-]; destruct ok; reflexivity.
  - destruct (hold_match hs c (ev_type ev, ev_code ev, ev_value ev))
      as [e | [c1 fired]]; [discriminate |].
    intros [= _ <-]. destruct fired, ok; reflexivity.
Qed.

(** X22: neither loop ever calls [systemctl suspend] except right after a
    short-press or long-press action: in every trace of the two loops, each
    [Suspend] directly follows a [ShortPress] or a [LongPress]. *)
Theorem suspend_only_after_action
    (hs : list hold_event) (fuel : nat) (w : world) (dev : bool)
    (pressed_time : option spec_float) (hold_state n : nat) :
  suspend_guarded false (power_button_timer fuel w dev pressed_time n).1 = true
  /\ suspend_guarded false
       (power_button_isa_loop hs fuel w dev hold_state n).1 = true.
Proof.
  split.
  - revert dev pressed_time n.
    induction fuel as [| f IH]; intros dev p n; [reflexivity |].
    cbn [power_button_timer].
    destruct (exit_set (w n)); [destruct dev; reflexivity |].
    assert (Htr1 : suspend_guarded false
              (if steam_running (w n) then ([], dev, Some n)
               else
                 let '(tr, r) := wait_steam_timer f w n in
                 ((if dev then [CloseDev PressDev] else []) ++ tr, false, r)).1.1
            = true).
    { destruct (steam_running (w n)); [reflexivity |].
      pose proof (wait_steam_timer_guarded f w n) as Hw.
      destruct (wait_steam_timer f w n) as [tr r]. cbn [fst] in *.
      destruct dev; exact Hw. }
    destruct (if steam_running (w n) then _ else _) as [[tr1 dev1] r1].
    cbn [fst] in Htr1.
    destruct r1 as [n1 |]; [| exact Htr1].
    assert (Htr2 : suspend_guarded false
              (if dev1 then ([], true)
               else if press_found (w n1) then ([Register PressDev], true)
               else ([], false)).1 = true).
    { destruct dev1; [reflexivity |]. destruct (press_found (w n1)); reflexivity. }
    destruct (if dev1 then _ else _) as [tr2 dev2]. cbn [fst] in Htr2.
    destruct dev2; cbn [negb].
    + cbv zeta.
      destruct (classify p (timer_ready (w n1)) (perf_counter (w n1)))
        as [p' pt].
      specialize (IH true p' (S n1)).
      destruct (power_button_timer f w true p' (S n1)) as [tr4 st].
      cbn [fst] in *.
      apply suspend_guarded_app; [exact Htr1 |].
      apply suspend_guarded_app; [exact Htr2 |].
      change (suspend_guarded false
                (dispatch pt (action_ok (w n1)) ++ tr4) = true).
      apply suspend_guarded_app; [apply dispatch_guarded | exact IH].
    + cbn [fst]. apply suspend_guarded_app; assumption.
  - revert dev hold_state n.
    induction fuel as [| f IH]; intros devs c n; [reflexivity |].
    cbn [power_button_isa_loop].
    destruct (exit_set (w n)); [reflexivity |].
    assert (Htr1 : suspend_guarded false
              (if steam_running (w n) then ([], devs, SteamUp n)
               else
                 let '(tr, r) := wait_steam_isa f w n in
                 ((if devs then [CloseDev PressDev; CloseDev HoldDev] else [])
                    ++ tr, false, r)).1.1
            = true).
    { destruct (steam_running (w n)); [reflexivity |].
      pose proof (wait_steam_isa_guarded f w n) as Hw.
      destruct (wait_steam_isa f w n) as [tr r]. cbn [fst] in *.
      destruct devs; exact Hw. }
    destruct (if steam_running (w n) then _ else _) as [[tr1 devs1] r1].
    cbn [fst] in Htr1.
    destruct r1 as [n1 | |]; try exact Htr1.
    assert (Htr2 : suspend_guarded false
              (if devs1 then ([], true)
               else
                 ((if press_found (w n1) then [Register PressDev] else [])
                    ++ (if hold_found (w n1) then [Register HoldDev] else []),
                  press_found (w n1) && hold_found (w n1))).1 = true).
    { destruct devs1; [reflexivity |].
      destruct (press_found (w n1)), (hold_found (w n1)); reflexivity. }
    destruct (if devs1 then _ else _) as [tr2 devs2]. cbn [fst] in Htr2.
    destruct devs2; cbn [negb].
    + destruct (ready (w n1)) as [[d ev] |].
      * destruct (isa_handle hs c d ev (action_ok (w n1)))
          as [e | [c' tr3]] eqn:Hh.
        -- cbn [fst]. apply suspend_guarded_app; [exact Htr1 |].
           apply suspend_guarded_app; [exact Htr2 | reflexivity].
        -- specialize (IH true c' (S n1)).
           destruct (power_button_isa_loop hs f w true c' (S n1)) as [tr4 st].
           cbn [fst] in *.
           apply suspend_guarded_app; [exact Htr1 |].
           apply suspend_guarded_app; [exact Htr2 |].
           change (suspend_guarded false (tr3 ++ tr4) = true).
           apply suspend_guarded_app;
             [exact (isa_handle_guarded _ _ _ _ _ _ _ Hh) | exact IH].
      * specialize (IH true c (S n1)).
        destruct (power_button_isa_loop hs f w true c (S n1)) as [tr4 st].
        cbn [fst] in *.
        apply suspend_guarded_app; [exact Htr1 |].
        apply suspend_guarded_app; [exact Htr2 | exact IH].
    + cbn [fst]. apply suspend_guarded_app; assumption.
Qed.

Lemma timer_trace_held_app (held : bool) (tr1 tr2 : list action) :
  timer_trace_held held (tr1 ++ tr2)
  = match timer_trace_held held tr1 with
    | Some held' => timer_trace_held held' tr2
    | None => None
    end.
Proof.
  revert held. induction tr1 as [| a tr1 IH]; intros held; [reflexivity |].
  destruct a as [[] | [] | | t | | |], held; cbn [app timer_trace_held];
    auto.
Qed.

Lemma wait_steam_timer_held (fuel : nat) (w : world) (n : nat) :
  timer_trace_held false (wait_steam_timer fuel w n).1 = Some false.
Proof.
  revert n. induction fuel as [| f IH]; intros n; [reflexivity |].
  cbn [wait_steam_timer]. destruct (steam_running (w n)); [reflexivity |].
  specialize (IH (S n)). destruct (wait_steam_timer f w (S n)). exact IH.
Qed.

Lemma dispatch_held (pt : press_type) (ok : bool) :
  timer_trace_held true (dispatch pt ok) = Some true.
Proof. destruct pt, ok; reflexivity. Qed.

(** X23: the timer variant uses the power-button device in order: it
    registers the device only when it does not hold it, waits on it and acts
    only while it holds it, sleeps in the gating wait only after having
    closed it, and closes it only when it holds it; and whenever the loop
    returns, the device is not held any more (the [finally] clause). *)
Theorem timer_device_discipline
    (fuel : nat) (w : world) (dev : bool)
    (pressed_time : option spec_float) (n : nat) :
  exists held : bool,
    timer_trace_held dev (power_button_timer fuel w dev pressed_time n).1
    = Some held
    /\ ((power_button_timer fuel w dev pressed_time n).2 = Returned ->
        held = false).
Proof.
  revert dev pressed_time n.
  induction fuel as [| f IH]; intros dev p n.
  { exists dev. split; [reflexivity | discriminate]. }
  cbn [power_button_timer].
  destruct (exit_set (w n)).
  { exists false. destruct dev; split; reflexivity. }
  assert (Htr1 :
    timer_trace_held dev
      (if steam_running (w n) then ([], dev, Some n)
       else
         let '(tr, r) := wait_steam_timer f w n in
         ((if dev then [CloseDev PressDev] else []) ++ tr, false, r)).1.1
    = Some (if steam_running (w n) then ([], dev, Some n)
            else
              let '(tr, r) := wait_steam_timer f w n in
              ((if dev then [CloseDev PressDev] else []) ++ tr, false, r)).1.2).
  { destruct (steam_running (w n)); [reflexivity |].
    pose proof (wait_steam_timer_held f w n) as Hw.
    destruct (wait_steam_timer f w n) as [tr r]. cbn [fst snd] in *.
    destruct dev; exact Hw. }
  destruct (if steam_running (w n) then _ else _) as [[tr1 dev1] r1].
  cbn [fst snd] in Htr1.
  destruct r1 as [n1 |].
  2: { exists dev1. split; [exact Htr1 | discriminate]. }
  destruct dev1.
  - cbn [negb]. cbv zeta.
    destruct (classify p (timer_ready (w n1)) (perf_counter (w n1)))
      as [p' pt].
    destruct (IH true p' (S n1)) as (held & Hrest & Hret).
    destruct (power_button_timer f w true p' (S n1)) as [tr4 st].
    cbn [fst snd] in *. exists held. split; [| exact Hret].
    rewrite timer_trace_held_app, Htr1. cbn [app timer_trace_held].
    rewrite timer_trace_held_app, dispatch_held. exact Hrest.
  - destruct (press_found (w n1)).
    + cbn [negb]. cbv zeta.
      destruct (classify p (timer_ready (w n1)) (perf_counter (w n1)))
        as [p' pt].
      destruct (IH true p' (S n1)) as (held & Hrest & Hret).
      destruct (power_button_timer f w true p' (S n1)) as [tr4 st].
      cbn [fst snd] in *. exists held. split; [| exact Hret].
      rewrite timer_trace_held_app, Htr1. cbn [app timer_trace_held].
      rewrite timer_trace_held_app, dispatch_held. exact Hrest.
    + cbn [negb]. exists false. split; [| reflexivity].
      cbn [fst]. rewrite app_nil_r. exact Htr1.
Qed.

(** ** Press-time edge cases and gating loss in the timer variant *)

(** X24: every power-key event with a non-zero value (a press, also a
    repeated one) restarts the measurement and calls nothing: whatever press
    was pending before it is forgotten, and a release that follows is
    classified by the time elapsed since that last event alone. *)
Theorem timer_press_restarts_measure
    (pending : option spec_float) (ev : InputEvent) (t1 t2 : spec_float)
    (ok : bool) :
  ev_type ev = EV_KEY -> ev_code ev = KEY_POWER -> ev_value ev <> 0 ->
  float_truthy t1 = true ->
  classify pending (Some ev) t1 = (Some t1, initial_press)
  /\ dispatch (classify pending (Some ev) t1).2 ok = []
  /\ classify (classify pending (Some ev) t1).1 (Some release_event) t2
     = (None,
        if fgtb (fsub t2 t1) LONG_PRESS_DELAY then long_press
        else short_press).
Proof.
  intros Hty Hco Hva Ht1.
  assert (Hc : classify pending (Some ev) t1 = (Some t1, initial_press)).
  { unfold classify. rewrite Hty, Hco.
    change (EV_KEY =? EV_KEY) with true.
    change (KEY_POWER =? KEY_POWER) with true.
    apply Z.eqb_neq in Hva. rewrite Hva. reflexivity. }
  rewrite Hc. cbn [fst snd dispatch]. repeat split.
  unfold classify, release_event. cbn [ev_type ev_code ev_value].
  change (EV_KEY =? EV_KEY) with true.
  change (KEY_POWER =? KEY_POWER) with true.
  change (0 =? 0) with true. cbn [andb negb]. rewrite Ht1. reflexivity.
Qed.

Lemma timer_press_restarts_measure_witness :
  classify (Some (float_of_int 1))
    (Some {| ev_type := EV_KEY; ev_code := KEY_POWER; ev_value := 2 |})
    (float_of_int 3)
  = (Some (float_of_int 3), initial_press).
Proof.
  apply (proj1 (timer_press_restarts_measure (Some (float_of_int 1))
                  {| ev_type := EV_KEY; ev_code := KEY_POWER; ev_value := 2 |}
                  (float_of_int 3) (float_of_int 4) true
                  eq_refl eq_refl ltac:(simpl; lia) eq_refl)).
Defined.

(** X25: when Steam stops running while the timer variant holds the
    device, the loop closes the device, sleeps until Steam runs again,
    registers the device anew and only then waits on it; the pending press,
    if there is one, is carried over unchanged into that wait. *)
Theorem timer_gating_loss
    (w : world) (n k fuel : nat) (pressed_time : option spec_float) :
  exit_set (w n) = false ->
  (0 < k)%nat ->
  (forall i, (i < k)%nat -> steam_running (w (n + i)%nat) = false) ->
  steam_running (w (n + k)%nat) = true ->
  (k < fuel)%nat ->
  press_found (w (n + k)%nat) = true ->
  power_button_timer (S fuel) w true pressed_time n
  = (CloseDev PressDev
       :: replicate k Sleep
       ++ Register PressDev
       :: Select (if truthy_time pressed_time then LONG_PRESS_DELAY
                  else STEAM_WAIT_DELAY)
       :: dispatch
            (classify pressed_time (timer_ready (w (n + k)%nat))
               (perf_counter (w (n + k)%nat))).2
            (action_ok (w (n + k)%nat))
       ++ (power_button_timer fuel w true
             (classify pressed_time (timer_ready (w (n + k)%nat))
                (perf_counter (w (n + k)%nat))).1
             (S (n + k))).1,
     (power_button_timer fuel w true
        (classify pressed_time (timer_ready (w (n + k)%nat))
           (perf_counter (w (n + k)%nat))).1
        (S (n + k))).2).
Proof.
  intros Hexit Hk Hdown Hup Hfuel Hfound.
  assert (H0 : steam_running (w n) = false).
  { rewrite <- (Nat.add_0_r n). apply Hdown. exact Hk. }
  cbn [power_button_timer]. rewrite Hexit, H0.
  rewrite (wait_steam_timer_sleeps w k fuel n Hdown Hup Hfuel).
  rewrite Hfound. cbn [negb]. cbv zeta.
  destruct (classify pressed_time (timer_ready (w (n + k)%nat))
              (perf_counter (w (n + k)%nat))) as [p' pt].
  cbn [fst snd].
  destruct (power_button_timer fuel w true p' (S (n + k))) as [tr4 st].
  cbn [fst snd app]. reflexivity.
Qed.

Lemma timer_gating_loss_witness :
  power_button_timer 4
    (fun m => if (m <? 2)%nat
              then {| exit_set := false; steam_running := false;
                      press_found := true; hold_found := true;
                      ready := None; perf_counter := float_of_int 1;
                      action_ok := true |}
              else with_exit quiet_tick)
    true (Some (float_of_int 1)) O
  = ([CloseDev PressDev; Sleep; Sleep; Register PressDev;
      Select LONG_PRESS_DELAY; LongPress; CloseDev PressDev], Returned).
Proof.
  apply (timer_gating_loss
           (fun m => if (m <? 2)%nat
                     then {| exit_set := false; steam_running := false;
                             press_found := true; hold_found := true;
                             ready := None; perf_counter := float_of_int 1;
                             action_ok := true |}
                     else with_exit quiet_tick)
           O 2 3 (Some (float_of_int 1))).
  - reflexivity.
  - lia.
  - intros i Hi. destruct i as [| [| i]]; [reflexivity | reflexivity | lia].
  - reflexivity.
  - lia.
  - reflexivity.
Defined.

(** * Properties of device discovery and of the entry point *)

Import Discovery.

Lemma first_device_skip (prefix : string) (grab : bool)
    (pre rest : list InputDevice) :
  Forall (fun x => String.prefix prefix (dev_phys x) = false) pre ->
  first_device prefix grab (pre ++ rest) = first_device prefix grab rest.
Proof.
  induction 1 as [| x pre Hx _ IH]; [reflexivity |].
  cbn [app first_device]. rewrite Hx. exact IH.
Qed.

Lemma first_device_sound (prefix : string) (grab : bool)
    (devices : list InputDevice) (ops : list op) (d : InputDevice) :
  first_device prefix grab devices = (ops, Device d) ->
  d ∈ devices
  /\ String.prefix prefix (dev_phys d) = true
  /\ ops = (if grab then [Grab (path d)] else [])
  /\ (grab = true -> grabbable d = true).
Proof.
  induction devices as [| x rest IH]; cbn [first_device]; [discriminate |].
  destruct (String.prefix prefix (dev_phys x)) eqn:Hp.
  - destruct grab.
    + destruct (grabbable x) eqn:Hg; intros [= <- <-].
      repeat split; auto. left.
    + intros [= <- <-]. repeat split; auto; [left | discriminate].
  - intros Hrest. destruct (IH Hrest) as (Hin & Hpre & Hops & Hg).
    repeat split; auto. right. exact Hin.
Qed.

(** X26: [register_power_button] opens every listed device, then grabs and
    returns the first one whose physical path starts with the configured
    prefix, and grabs no other; when no device matches it returns nothing
    and grabs nothing.  Whatever it returns is a listed device with that
    prefix, and the last call made is its grab. *)
Theorem register_power_button_first_match
    (b : PowerButtonConfig) (devices pre post : list InputDevice)
    (d : InputDevice) (ops : list op) :
  (devices = pre ++ d :: post ->
   Forall (fun x => String.prefix (phys b) (dev_phys x) = false) pre ->
   String.prefix (phys b) (dev_phys d) = true ->
   register_power_button b devices
   = ((Open ∘ path <$> devices) ++ [Grab (path d)],
      if grabbable d then Device d else GrabRefused d))
  /\ (Forall (fun x => String.prefix (phys b) (dev_phys x) = false) devices ->
      register_power_button b devices
      = (Open ∘ path <$> devices, NoDevice))
  /\ (register_power_button b devices = (ops, Device d) ->
      d ∈ devices
      /\ String.prefix (phys b) (dev_phys d) = true
      /\ ops = (Open ∘ path <$> devices) ++ [Grab (path d)]).
Proof.
  unfold register_power_button. split; [| split].
  - intros -> Hpre Hd. rewrite (first_device_skip _ _ _ _ Hpre).
    cbn [first_device]. rewrite Hd. reflexivity.
  - intros Hnone.
    rewrite <- (app_nil_r devices) at 1.
    rewrite (first_device_skip _ _ _ _ Hnone). cbn [first_device].
    rewrite app_nil_r. reflexivity.
  - destruct (first_device (phys b) true devices) as [ops' r] eqn:Hf.
    intros [= <- ->].
    destruct (first_device_sound _ _ _ _ _ Hf) as (Hin & Hp & -> & _).
    auto.
Qed.

(** X27: [register_hold_button] returns nothing, without opening any
    device, when the configuration has no hold path (or an empty one), no
    hold events (or an empty sequence) or no grab flag; with a grab flag that
    is false it never grabs a device. *)
Theorem register_hold_button_config
    (b : PowerButtonConfig) (devices : list InputDevice) :
  (hold_phys b = None \/ hold_phys b = Some ""%string
   \/ hold_events b = None \/ hold_events b = Some []
   \/ hold_grab b = None ->
   register_hold_button b devices = ([], NoDevice))
  /\ (hold_grab b = Some false ->
      Forall (fun o => if o is Grab _ then False else True)
        (register_hold_button b devices).1).
Proof.
  unfold register_hold_button. split.
  - intros [-> | [-> | [-> | [-> | ->]]]]; try reflexivity.
    + destruct (hold_events b) as [[| e es] |], (hold_grab b); reflexivity.
    + destruct (hold_phys b); reflexivity.
    + destruct (hold_phys b); reflexivity.
    + destruct (hold_phys b), (hold_events b) as [[| e es] |]; reflexivity.
  - intros ->.
    destruct (hold_phys b) as [hp |]; [| constructor].
    destruct (hold_events b) as [[| e es] |]; try constructor.
    destruct (String.eqb hp ""); [constructor |].
    assert (Hno : Forall (fun o => if o is Grab _ then False else True)
                    (first_device hp false devices).1).
    { induction devices as [| x rest IH]; cbn [first_device]; [constructor |].
      destruct (String.prefix hp (dev_phys x)); [constructor | exact IH]. }
    destruct (first_device hp false devices) as [ops r]. cbn [fst] in *.
    apply Forall_app. split; [| exact Hno].
    apply Forall_fmap. apply Forall_forall. intros x _. exact I.
Qed.

(** X28: whatever the type in the configuration, [power_button_run]
    returns once the cancellation flag is set, provided Steam runs from then
    on; a configuration of an unknown type, or of type ["hold_isa"] without
    hold events, makes it return at once without any call. *)
Theorem power_button_run_returns
    (cfg : PowerButtonConfig) (w : world) (k fuel : nat) :
  ((forall m, (k <= m)%nat -> exit_set (w m) = true) ->
   (forall m, (k <= m)%nat -> steam_running (w m) = true) ->
   (k + 2 <= fuel)%nat ->
   (power_button_run cfg fuel w).2 = Returned)
  /\ ((type cfg <> "hold_emitted"%string /\ type cfg <> "hold_isa"%string)
      \/ (type cfg = "hold_isa"%string
          /\ (hold_events cfg = None \/ hold_events cfg = Some [])) ->
      power_button_run cfg fuel w = ([], Returned)).
Proof.
  unfold power_button_run. split.
  - intros Hexit Hsteam Hfuel.
    destruct (String.eqb (type cfg) "hold_emitted").
    + apply (timer_loop_returns_when_cancelled w k fuel O false None Hexit
               Hsteam);
        lia.
    + destruct (String.eqb (type cfg) "hold_isa"); [| reflexivity].
      unfold power_button_isa.
      destruct (hold_events cfg) as [[| e es] |]; try reflexivity.
      apply (isa_loop_returns_when_cancelled (e :: es) w k fuel O false O
               Hexit);
        lia.
  - intros [[Ht Hi] | [Hi Hev]].
    + apply String.eqb_neq in Ht, Hi. rewrite Ht, Hi. reflexivity.
    + rewrite Hi. cbn [String.eqb Ascii.eqb Bool.eqb].
      destruct Hev as [-> | ->]; reflexivity.
Qed.

Lemma register_power_button_first_match_witness :
  register_power_button timer_config [keyboard_device; power_device]
  = ([Open "/dev/input/event3"; Open "/dev/input/event0";
      Grab "/dev/input/event0"], Device power_device).
Proof.
  apply (proj1 (register_power_button_first_match timer_config
                  [keyboard_device; power_device] [keyboard_device] []
                  power_device [])).
  - reflexivity.
  - constructor; [reflexivity | constructor].
  - reflexivity.
Defined.

Lemma register_hold_button_config_witness :
  register_hold_button timer_config [keyboard_device; power_device]
  = ([], NoDevice).
Proof.
  apply (proj1 (register_hold_button_config timer_config
                  [keyboard_device; power_device])).
  left. reflexivity.
Defined.

Lemma power_button_run_returns_witness :
  power_button_run bogus_config 7 held_world = ([], Returned).
Proof.
  apply (proj2 (power_button_run_returns bogus_config held_world 3 7)).
  left. split; discriminate.
Defined.
